(** * A manifest-driven single-page site: routing, dispatch and metadata

    Shallow embedding of [src/App.tsx].  JavaScript strings are modelled as
    [string]; the code only compares them, tests them for emptiness and
    looks at a leading ["/"], so the encoding of characters plays no role.
    An optional property ([heading?: string]) is an [option]; a React
    element is a value of [VNode]; the hooks' state is the record
    [AppState]; the parts of [window] and [document] the component touches
    are the records [History] and [Document], and what the browser makes of
    a URL handed to it is a parameter, [Browser]. *)

From Stdlib Require Import String Ascii List Bool Arith ZArith Lia.
Import ListNotations.
Open Scope string_scope.
Set Warnings "-register-all".

(** ** JavaScript truthiness and defaults *)

(** [!!s] for a string: every string but the empty one is truthy. *)
Definition truthy (s : string) : bool :=
  match s with
  | EmptyString => false
  | String _ _ => true
  end.

(** [!!v] for [v : string | undefined]. *)
Definition truthyOpt (o : option string) : bool :=
  match o with
  | Some s => truthy s
  | None => false
  end.

(** [a || b] where [a : string | undefined] and [b : string]. *)
Definition orElse (a : option string) (b : string) : string :=
  match a with
  | Some s => if truthy s then s else b
  | None => b
  end.

(** [a ?? b]: only [undefined] (and [null]) give way to the default. *)
Definition nullish (a : option string) (b : string) : string :=
  match a with
  | Some s => s
  | None => b
  end.

(** ** Path router: [slugToPath] *)

(** [s.replace(/^\//, '')]: the pattern is anchored and not global, so at
    most one character is removed. *)
Definition replaceLeadingSlash (s : string) : string :=
  match s with
  | String "/"%char rest => rest
  | _ => s
  end.

Definition slugToPath (slug : string) : string :=
  if negb (truthy slug) || (slug =? "/") || (slug =? "home")
  then "/"
  else "/" ++ replaceLeadingSlash slug.

(** [s.startsWith(p)], used to state properties of paths. *)
Fixpoint startsWith (p s : string) : bool :=
  match p, s with
  | EmptyString, _ => true
  | String _ _, EmptyString => false
  | String a p', String b s' => Ascii.eqb a b && startsWith p' s'
  end.

(** ** Data model: the manifest

    Field names follow the TypeScript types; a prefix tells the records
    apart where two of them share a field name.  [page_title] and
    [meta_description] are optional here although the type declares them as
    plain strings: the response body is cast to [ManifestResponse] without
    a check, and the code tests both for truthiness. *)

Record ManifestNavLink := {
  link_label : string;
  link_slug : string
}.

Record ManifestFooter := {
  footer_text : option string;
  footer_links : option (list ManifestNavLink)
}.

Record ManifestSection := {
  sec_type : string;
  sec_heading : option string;
  sec_body : option string
}.

Record ManifestPage := {
  pg_slug : string;
  pg_title : string;
  pg_sections : list ManifestSection
}.

Record ManifestNav := {
  nav_links : option (list ManifestNavLink)
}.

Record Manifest := {
  nav : option ManifestNav;
  footer : option ManifestFooter;
  pages : option (list ManifestPage)
}.

Record ManifestResponse := {
  manifest_id : Z;
  business_name : string;
  page_title : option string;
  meta_description : option string;
  cta : option string;
  manifest : Manifest
}.

(** [import.meta.env]: both values are [string | undefined]. *)
Record Config := {
  manifestUrl : option string;
  siteNameEnv : option string
}.

(** ** Rendered output

    A click handler is kept as data: which closure the button carries. *)

Inductive Handler :=
| OnNavigate (path : string)     (* () => onNavigate(path) *)
| HandleClick (slug : string).   (* () => handleClick(slug) *)

Inductive Attr :=
| ClassName (c : string)
| ButtonType (t : string)
| OnClick (h : Handler).

(** React keys are hints for reconciliation and not part of the output;
    they are left out. *)
Inductive VNode :=
| VNothing                                   (* null, undefined, false *)
| VText (s : string)
| VElem (tag : string) (attrs : list Attr) (children : list VNode).

(** [{c && v}] for [c : string | undefined]: [undefined] stays
    [undefined], the empty string stays the empty string. *)
Definition andThen (c : option string) (v : VNode) : VNode :=
  match c with
  | None => VNothing
  | Some s => if truthy s then v else VText s
  end.

(** [{o}] for [o : string | undefined | null]. *)
Definition childOpt (o : option string) : VNode :=
  match o with
  | Some s => VText s
  | None => VNothing
  end.

(** ** Section components *)

Definition Hero (heading body : string) : VNode :=
  VElem "section" [ClassName "text-center space-y-4"]
    [ VElem "h1" [ClassName "text-3xl font-semibold tracking-tight md:text-4xl"]
        [VText heading];
      VElem "p" [ClassName "text-slate-300 max-w-2xl mx-auto"] [VText body] ].

Definition TextBlock (heading body : option string) : VNode :=
  VElem "section" [ClassName "space-y-2"]
    [ andThen heading
        (VElem "h2" [ClassName "text-xl font-semibold tracking-tight"]
           [childOpt heading]);
      andThen body
        (VElem "p" [ClassName "text-slate-300 whitespace-pre-line"]
           [childOpt body]) ].

Definition ImageBlock (heading body : option string) : VNode :=
  VElem "section"
    [ClassName "space-y-2 border border-dashed border-slate-800 rounded-lg p-4"]
    [ andThen heading
        (VElem "h2" [ClassName "text-lg font-semibold tracking-tight"]
           [childOpt heading]);
      andThen body (VElem "p" [ClassName "text-slate-300"] [childOpt body]);
      VElem "div"
        [ClassName "h-40 rounded-md bg-slate-900/60 flex items-center justify-center text-slate-500 text-sm"]
        [VText "Image placeholder"] ].

Definition GenericSection (type : string) (heading body : option string)
  : VNode :=
  VElem "section" [ClassName "space-y-2 border border-slate-800 rounded-lg p-4"]
    [ VElem "div" [ClassName "text-xs uppercase tracking-wide text-slate-500"]
        [VText type];
      andThen heading
        (VElem "h2" [ClassName "text-lg font-semibold tracking-tight"]
           [childOpt heading]);
      andThen body
        (VElem "p" [ClassName "text-slate-300 whitespace-pre-line"]
           [childOpt body]) ].

(** The [switch] compares with [===]; the cases are tried in order. *)
Definition renderSection (section : ManifestSection) : VNode :=
  let type := sec_type section in
  if type =? "hero" then
    Hero (nullish (sec_heading section) "") (nullish (sec_body section) "")
  else if (type =? "text-block") || (type =? "content-block") then
    TextBlock (sec_heading section) (sec_body section)
  else if type =? "image-block" then
    ImageBlock (sec_heading section) (sec_body section)
  else if (type =? "profile-row") || (type =? "testimonial")
          || (type =? "faq") || (type =? "contact-form") then
    GenericSection type (sec_heading section) (sec_body section)
  else VNothing.

Definition SectionRenderer (section : ManifestSection) : VNode :=
  renderSection section.

(** ** The shell *)

(** [{links && links.length > 0 && v}] *)
Definition whenLinks (links : option (list ManifestNavLink))
  (v : list ManifestNavLink -> VNode) : VNode :=
  match links with
  | None => VNothing
  | Some l => if (0 <? length l)%nat then v l else VNothing
  end.

Definition Layout (navLinks : option (list ManifestNavLink))
  (footer : option ManifestFooter) (siteName currentPath : string)
  (children : VNode) : VNode :=
  VElem "div" [ClassName "min-h-screen flex flex-col bg-slate-950 text-slate-100"]
    [ VElem "header"
        [ClassName "border-b border-slate-800 bg-slate-900/70 backdrop-blur"]
        [ VElem "div"
            [ClassName "mx-auto max-w-5xl px-4 py-4 flex items-center justify-between"]
            [ VElem "button"
                [ ButtonType "button";
                  ClassName "text-lg font-semibold tracking-tight";
                  OnClick (OnNavigate "/") ]
                [VText siteName];
              whenLinks navLinks (fun links =>
                VElem "nav" [ClassName "flex gap-4 text-sm"]
                  (map (fun link =>
                     let path := slugToPath (link_slug link) in
                     let isActive := path =? currentPath in
                     VElem "button"
                       [ ButtonType "button";
                         OnClick (HandleClick (link_slug link));
                         ClassName
                           ("px-2 py-1 rounded-md transition-colors " ++
                            (if isActive
                             then "bg-slate-100 text-slate-900"
                             else "text-slate-200 hover:bg-slate-800")) ]
                       [VText (link_label link)])
                     links)) ] ];
      VElem "main" [ClassName "flex-1"]
        [ VElem "div" [ClassName "mx-auto max-w-3xl px-4 py-10"] [children] ];
      match footer with
      | None => VNothing
      | Some footer =>
          VElem "footer"
            [ClassName "border-t border-slate-800 bg-slate-900/70 text-sm"]
            [ VElem "div"
                [ClassName "mx-auto max-w-5xl px-4 py-4 flex flex-col gap-2 md:flex-row md:items-center md:justify-between"]
                [ VElem "div" [ClassName "text-slate-400"]
                    [childOpt (footer_text footer)];
                  whenLinks (footer_links footer) (fun links =>
                    VElem "div" [ClassName "flex flex-wrap gap-3"]
                      (map (fun link =>
                         VElem "button"
                           [ ButtonType "button";
                             OnClick (HandleClick (link_slug link));
                             ClassName "text-slate-300 hover:text-white" ]
                           [VText (link_label link)])
                         links)) ] ]
      end ].

(** ** The view: state and rendering *)

Record AppState := {
  data : option ManifestResponse;
  isLoading : bool;
  error : option string;
  currentPath : string
}.

Definition isSome {A : Type} (o : option A) : bool :=
  match o with
  | Some _ => true
  | None => false
  end.

(** [data.manifest.pages || []] *)
Definition pagesOf (d : ManifestResponse) : list ManifestPage :=
  match pages (manifest d) with
  | Some l => l
  | None => []
  end.

Definition hasPages (pages : list ManifestPage) : bool :=
  (0 <? length pages)%nat.

(** [hasPages ? pages.find(...) || pages[0] : undefined]; a page is an
    object, hence truthy. *)
Definition currentPage (pages : list ManifestPage) (currentPath : string)
  : option ManifestPage :=
  if hasPages pages then
    match find (fun page => slugToPath (pg_slug page) =? currentPath) pages with
    | Some page => Some page
    | None => nth_error pages 0
    end
  else None.

Definition PageNotFound : VNode := VElem "div" [] [VText "Page not found"].

Definition NoPagesDefined : VNode :=
  VElem "div" [] [VText "No pages defined in manifest"].

(** The children handed to [Layout]. *)
Definition pageBody (pages : list ManifestPage) (currentPath : string)
  : VNode :=
  match currentPage pages currentPath with
  | Some page =>
      VElem "div" [ClassName "space-y-8"]
        (map SectionRenderer (pg_sections page))
  | None => if hasPages pages then PageNotFound else NoPagesDefined
  end.

Definition message (children : VNode) : VNode :=
  VElem "div" [ClassName "p-6 text-center"] [children].

(** [data.manifest.nav?.links] *)
Definition navLinksOf (d : ManifestResponse)
  : option (list ManifestNavLink) :=
  match nav (manifest d) with
  | Some n => nav_links n
  | None => None
  end.

Definition App (cfg : Config) (st : AppState) : VNode :=
  if negb (truthyOpt (manifestUrl cfg)) then
    message (VText "Missing VITE_MANIFEST_URL")
  else if isLoading st && negb (isSome (data st)) then
    message (VText "Loading...")
  else if truthyOpt (error st) && negb (isSome (data st)) then
    message (childOpt (error st))
  else
    match data st with
    | None => message (VText "No manifest data")
    | Some d =>
        let siteName := orElse (siteNameEnv cfg) (business_name d) in
        let pages := pagesOf d in
        Layout (navLinksOf d) (footer (manifest d)) siteName
          (currentPath st) (pageBody pages (currentPath st))
    end.

(** ** The browser: session history and document

    [pathname] is [window.location.pathname] of the current entry; [back]
    and [forward] hold the pathnames of the entries on either side, nearest
    first. *)

Record History := {
  back : list string;
  pathname : string;
  forward : list string
}.

(** What the browser makes of a URL handed to [history.pushState], which
    is the browser's business and depends on the URL of the document:
    [resolve current url] is [None] when the URL is refused with a
    SecurityError (it names another origin, as a URL beginning with two
    slashes does unless it names the document's own host), and else the
    pathname of the URL it stands for, resolved against the current one:
    parsed, percent-encoded, without query and fragment.  The properties
    below are stated for every browser. *)
Record Browser := {
  resolve : string -> string -> option string
}.

(** [window.history.pushState({}, '', url)]; [None] when it throws. *)
Definition pushState (b : Browser) (url : string) (h : History)
  : option History :=
  match resolve b (pathname h) url with
  | Some p =>
      Some {| back := pathname h :: back h; pathname := p; forward := [] |}
  | None => None
  end.

Definition goBack (h : History) : option History :=
  match back h with
  | [] => None
  | p :: rest =>
      Some {| back := rest; pathname := p; forward := pathname h :: forward h |}
  end.

Definition goForward (h : History) : option History :=
  match forward h with
  | [] => None
  | p :: rest =>
      Some {| back := pathname h :: back h; pathname := p; forward := rest |}
  end.

Definition entries (h : History) : list string :=
  (rev (back h) ++ pathname h :: forward h)%list.

Record MetaElement := {
  meta_name : string;
  meta_content : string
}.

(** The children of the document's head. *)
Inductive HeadChild :=
| HTitle (text : string)
| HMeta (m : MetaElement)
| HOther (tag : string).

Record Document := {
  doc_head : list HeadChild
}.

Definition isTitle (c : HeadChild) : bool :=
  match c with
  | HTitle _ => true
  | _ => false
  end.

(** The text of the title element, the first one there is. *)
Fixpoint titleText (head : list HeadChild) : option string :=
  match head with
  | [] => None
  | HTitle text :: _ => Some text
  | _ :: rest => titleText rest
  end.

(** ASCII whitespace: tab, line feed, form feed, carriage return, space. *)
Definition isAsciiWhitespace (c : ascii) : bool :=
  Ascii.eqb c "009" || Ascii.eqb c "010" || Ascii.eqb c "012" ||
  Ascii.eqb c "013" || Ascii.eqb c " ".

(** Runs of whitespace become one space, except at either end, where they
    are dropped; [started] tells whether a character was put out, [gap]
    whether whitespace was met since. *)
Fixpoint collapseFrom (started gap : bool) (s : string) : string :=
  match s with
  | EmptyString => EmptyString
  | String c rest =>
      if isAsciiWhitespace c then collapseFrom started true rest
      else if started && gap
           then String " " (String c (collapseFrom true false rest))
           else String c (collapseFrom true false rest)
  end.

Definition stripAndCollapse (s : string) : string :=
  collapseFrom false false s.

(** Reading [document.title]: the text of the title element with its
    whitespace stripped and collapsed, the empty string without one. *)
Definition doc_title (d : Document) : string :=
  match titleText (doc_head d) with
  | Some text => stripAndCollapse text
  | None => ""
  end.

(** Writing [document.title = t]: the text of the title element is
    replaced; when there is none, one is created and appended to the
    head. *)
Fixpoint setTitle (t : string) (head : list HeadChild) : list HeadChild :=
  match head with
  | [] => [HTitle t]
  | HTitle _ :: rest => HTitle t :: rest
  | c :: rest => c :: setTitle t rest
  end.

Definition isDescription (c : HeadChild) : bool :=
  match c with
  | HMeta m => meta_name m =? "description"
  | _ => false
  end.

(** [document.querySelector('meta[name="description"]')]: the first match in
    document order, as its position in the head; [None] is [null]. *)
Fixpoint querySelector (head : list HeadChild) : option nat :=
  match head with
  | [] => None
  | c :: rest =>
      if isDescription c then Some 0 else option_map S (querySelector rest)
  end.

(** [meta.content = v] on the element at position [i]. *)
Fixpoint setContent (i : nat) (v : string) (head : list HeadChild)
  : list HeadChild :=
  match head, i with
  | [], _ => []
  | HMeta m :: rest, 0 =>
      HMeta {| meta_name := meta_name m; meta_content := v |} :: rest
  | c :: rest, 0 => c :: rest
  | c :: rest, S j => c :: setContent j v rest
  end.

Definition countDescriptions (d : Document) : nat :=
  length (filter isDescription (doc_head d)).

(** The effect that depends on [data] (lines 84-104). *)
Definition metadataEffect (cfg : Config) (data : option ManifestResponse)
  (doc : Document) : Document :=
  match data with
  | None => doc
  | Some d =>
      let siteName := orElse (siteNameEnv cfg) (business_name d) in
      let title := orElse (page_title d) siteName in
      let description := meta_description d in
      let titled := setTitle title (doc_head doc) in
      if truthyOpt description then
        let '(meta, head) :=
          match querySelector titled with
          | Some i => (i, titled)
          | None =>
              (length titled,
               (titled ++
                  [HMeta {| meta_name := "description"; meta_content := "" |}])%list)
          end in
        {| doc_head := setContent meta (nullish description "") head |}
      else {| doc_head := titled |}
  end.

(** Successive loads, each replacing [data] and so re-running the effect. *)
Definition loadAll (cfg : Config) (ms : list ManifestResponse)
  (doc : Document) : Document :=
  fold_left (fun d m => metadataEffect cfg (Some m) d) ms doc.

(** ** The manifest fetch *)

(** A settled promise; the rejection reason is only logged. *)
Inductive Settled (A : Type) :=
| Fulfilled (a : A)
| Rejected.
Arguments Fulfilled {A} a.
Arguments Rejected {A}.

(** A body either does not parse as JSON, or parses to a value.
    [Json None] is a falsy value ([null], [false], [0], the empty string),
    which every test of [data] reads as no data; [Json (Some m)] is a value
    read as a manifest (the unchecked cast of line 63), [m] holding the
    properties the code reads from it.  A truthy value without a
    [manifest] property, on which the render throws, is not covered. *)
Inductive Body :=
| NotJson
| Json (json : option ManifestResponse).

Record Response := {
  status : nat;
  body : Body
}.

(** [res.ok]: the code never reads it; it is here to state claims. *)
Definition ok (res : Response) : bool :=
  ((200 <=? status res) && (status res <=? 299))%nat.

Definition resJson (res : Response) : Settled (option ManifestResponse) :=
  match body res with
  | Json json => Fulfilled json
  | NotJson => Rejected
  end.

Definition thenP {A B : Type} (p : Settled A) (f : A -> Settled B)
  : Settled B :=
  match p with
  | Fulfilled a => f a
  | Rejected => Rejected
  end.

Definition setData (d : option ManifestResponse) (st : AppState) : AppState :=
  {| data := d; isLoading := isLoading st; error := error st;
     currentPath := currentPath st |}.

Definition setIsLoading (b : bool) (st : AppState) : AppState :=
  {| data := data st; isLoading := b; error := error st;
     currentPath := currentPath st |}.

Definition setError (e : option string) (st : AppState) : AppState :=
  {| data := data st; isLoading := isLoading st; error := e;
     currentPath := currentPath st |}.

Definition setCurrentPath (p : string) (st : AppState) : AppState :=
  {| data := data st; isLoading := isLoading st; error := error st;
     currentPath := p |}.

(** The synchronous part of the fetch effect (lines 56-59). *)
Definition fetchStart (cfg : Config) (st : AppState) : AppState :=
  if negb (truthyOpt (manifestUrl cfg)) then st
  else setError None (setIsLoading true st).

(** The promise chain of lines 61-72, run on the settled [fetch]. *)
Definition fetchSettled (outcome : Settled Response) (st : AppState)
  : AppState :=
  let parsed := thenP outcome resJson in
  let '(stored, st1) :=
    match parsed with
    | Fulfilled json => (Fulfilled tt, setData json st)
    | Rejected => (Rejected, st)
    end in
  let st2 :=
    match stored with
    | Fulfilled _ => st1
    | Rejected => setError (Some "Failed to load site configuration.") st1
    end in
  setIsLoading false st2.

(** ** The mounted view and its events *)

(** The state of the hooks together with the browser objects the component
    reads and writes; [inFlight] tells whether the fetch is outstanding. *)
Record View := {
  st : AppState;
  hist : History;
  doc : Document;
  inFlight : bool
}.

(** [s || d] for strings. *)
Definition orDefault (s d : string) : string := if truthy s then s else d.

(** When [pushState] throws, the exception leaves the handler before
    [setCurrentPath] is reached: the view stays as it is. *)
Definition handleNavigate (b : Browser) (path : string) (v : View) : View :=
  let normalized := orDefault path "/" in
  if normalized =? currentPath (st v) then v
  else
    match pushState b normalized (hist v) with
    | None => v
    | Some h' =>
        {| st := setCurrentPath normalized (st v);
           hist := h';
           doc := doc v;
           inFlight := inFlight v |}
    end.

(** [handleClick] of [Layout], with [onNavigate] bound to [handleNavigate]. *)
Definition handleClick (b : Browser) (slug : string) (v : View) : View :=
  let path := slugToPath slug in
  handleNavigate b path v.

Definition runHandler (b : Browser) (h : Handler) (v : View) : View :=
  match h with
  | OnNavigate path => handleNavigate b path v
  | HandleClick slug => handleClick b slug v
  end.

Definition handlePopState (v : View) : View :=
  {| st := setCurrentPath (orDefault (pathname (hist v)) "/") (st v);
     hist := hist v;
     doc := doc v;
     inFlight := inFlight v |}.

(** [useState] initial values (lines 48-53). *)
Definition initialState (h : History) : AppState :=
  {| data := None;
     isLoading := false;
     error := None;
     currentPath := orDefault (pathname h) "/" |}.

(** First render followed by the three effects in source order: the fetch
    is started, the popstate listener registered, and the metadata effect
    runs on the [data] of that render. *)
Definition mount (cfg : Config) (h : History) (d : Document) : View :=
  let st0 := initialState h in
  {| st := fetchStart cfg st0;
     hist := h;
     doc := metadataEffect cfg (data st0) d;
     inFlight := truthyOpt (manifestUrl cfg) |}.

(** The fetch settles; the re-render with the new [data] re-runs the
    metadata effect (when [data] is still [null] that effect returns at
    once). *)
Definition settle (cfg : Config) (outcome : Settled Response) (v : View)
  : View :=
  let st' := fetchSettled outcome (st v) in
  {| st := st';
     hist := hist v;
     doc := metadataEffect cfg (data st') (doc v);
     inFlight := false |}.

Definition Handler_eqb (a b : Handler) : bool :=
  match a, b with
  | OnNavigate p, OnNavigate q => p =? q
  | HandleClick s, HandleClick t => s =? t
  | _, _ => false
  end.

Definition attrHandlers (attrs : list Attr) : list Handler :=
  flat_map (fun a => match a with OnClick h => [h] | _ => [] end) attrs.

(** The click handlers present in a rendered tree. *)
Fixpoint handlers (v : VNode) : list Handler :=
  match v with
  | VElem _ attrs children =>
      (attrHandlers attrs ++ flat_map handlers children)%list
  | _ => []
  end.

Inductive Event :=
| Click (h : Handler)                    (* a button of the current render *)
| Back                                   (* browser back, then popstate *)
| Forward                                (* browser forward, then popstate *)
| Settle (outcome : Settled Response).   (* the fetch settles *)

(** One event; [None] when it cannot occur in [v]. *)
Definition dispatch (b : Browser) (cfg : Config) (e : Event) (v : View)
  : option View :=
  match e with
  | Click h =>
      if existsb (Handler_eqb h) (handlers (App cfg (st v)))
      then Some (runHandler b h v)
      else None
  | Back =>
      match goBack (hist v) with
      | Some h' =>
          Some (handlePopState
                  {| st := st v; hist := h'; doc := doc v;
                     inFlight := inFlight v |})
      | None => None
      end
  | Forward =>
      match goForward (hist v) with
      | Some h' =>
          Some (handlePopState
                  {| st := st v; hist := h'; doc := doc v;
                     inFlight := inFlight v |})
      | None => None
      end
  | Settle outcome =>
      if inFlight v then Some (settle cfg outcome v) else None
  end.

Fixpoint run (b : Browser) (cfg : Config) (es : list Event) (v : View)
  : option View :=
  match es with
  | [] => Some v
  | e :: rest =>
      match dispatch b cfg e v with
      | Some v' => run b cfg rest v'
      | None => None
      end
  end.

(** The views that some sequence of events leads to from the mount. *)
Definition reachable (b : Browser) (cfg : Config) (h : History)
  (d : Document) (v : View) : Prop :=
  exists es, run b cfg es (mount cfg h d) = Some v.

(** A pathname as a browser reports it for a hierarchical URL: empty or
    beginning with a slash. *)
Definition pathnameLike (p : string) : bool :=
  negb (truthy p) || startsWith "/" p.

(** The result of [App] when the fetch has failed. *)
Definition FailedView : VNode :=
  message (VText "Failed to load site configuration.").

(** ** Vocabulary of the properties *)

Definition matches (path : string) (page : ManifestPage) : Prop :=
  slugToPath (pg_slug page) = path.

(** What an optional field contributes to a block: nothing when the field
    is absent, the element [elem x] when it holds a non-empty [x]. *)
Definition optionalSlot (field : option string) (elem : string -> VNode)
  (slot : VNode) : Prop :=
  (field = None -> slot = VNothing) /\
  (forall x, field = Some x -> x <> "" -> slot = elem x).

Ltac solve_slot :=
  cbn [sec_type sec_heading sec_body]; split;
  [ intros ->; reflexivity
  | intros x -> Hx; destruct x; [contradiction | reflexivity] ].

Definition knownTypes : list string :=
  [ "hero"; "text-block"; "content-block"; "image-block";
    "profile-row"; "testimonial"; "faq"; "contact-form" ].

Definition descriptionMeta (content : string) : HeadChild :=
  HMeta {| meta_name := "description"; meta_content := content |}.

(** The title the effect computes. *)
Definition expectedTitle (cfg : Config) (m : ManifestResponse) : string :=
  match page_title m with
  | Some (String c t) => String c t
  | _ =>
      match siteNameEnv cfg with
      | Some (String c n) => String c n
      | _ => business_name m
      end
  end.

Definition absolute (p : string) : Prop := startsWith "/" p = true.

(** The handlers a render can carry: the site name navigates to ["/"],
    every link goes through [handleClick]. *)
Definition shellHandler (h : Handler) : Prop :=
  match h with
  | OnNavigate path => path = "/"
  | HandleClick _ => True
  end.

Definition historyOk (h : History) : Prop :=
  Forall (fun p => pathnameLike p = true) (back h) /\
  pathnameLike (pathname h) = true /\
  Forall (fun p => pathnameLike p = true) (forward h).

(** The invariant of the mounted view. *)
Definition pathInvariant (v : View) : Prop :=
  absolute (currentPath (st v)) /\ historyOk (hist v).

(** The current path mirrors the browser's location. *)
Definition synced (v : View) : Prop :=
  currentPath (st v) = orDefault (pathname (hist v)) "/".

(** The location is what the browser made of the current path: its
    pathname is the current path (["/"] standing for an empty pathname), or
    the pathname the browser gave to the URL [currentPath] when that was
    pushed. *)
Definition locationOf (b : Browser) (v : View) : Prop :=
  synced v \/
  exists current, resolve b current (currentPath (st v)) = Some (pathname (hist v)).

(** A browser on absolute paths: each is accepted, or refused, and an
    accepted one gets a pathname that is empty or starts with a slash. *)
Definition absoluteBrowser (b : Browser) : Prop :=
  forall current url p,
    startsWith "/" url = true -> resolve b current url = Some p ->
    pathnameLike p = true.

(** The part of a URL before its query and fragment. *)
Fixpoint pathOf (url : string) : string :=
  match url with
  | EmptyString => EmptyString
  | String c rest =>
      if Ascii.eqb c "?" || Ascii.eqb c "#" then EmptyString
      else String c (pathOf rest)
  end.

Fixpoint hasSlash (s : string) : bool :=
  match s with
  | EmptyString => false
  | String c rest => Ascii.eqb c "/" || hasSlash rest
  end.

(** A path up to and including its last slash. *)
Fixpoint dirOf (p : string) : string :=
  match p with
  | EmptyString => EmptyString
  | String c rest =>
      if hasSlash rest then String c (dirOf rest)
      else if Ascii.eqb c "/" then "/" else EmptyString
  end.

(** A browser for the examples, showing a document of a site whose host
    the URLs at hand do not name: a URL beginning with two slashes names
    another origin and is refused; a URL beginning with one slash is taken
    up to its query or fragment; any other is resolved against the
    directory of the current path.  It is what a browser does on URLs
    without scheme, without dot segments and without characters that need
    encoding. *)
Definition exampleBrowser : Browser :=
  {| resolve := fun current url =>
       if startsWith "//" url then None
       else
         let p := pathOf url in
         if startsWith "/" p then Some p
         else if p =? "" then Some current
         else Some (dirOf current ++ p) |}.

(** The children of a head that are no title elements. *)
Definition untitled (head : list HeadChild) : list HeadChild :=
  filter (fun c => negb (isTitle c)) head.


Definition isSettle (e : Event) : bool :=
  match e with
  | Settle _ => true
  | _ => false
  end.

Definition isPageNotFound (v : VNode) : bool :=
  match v with
  | VElem "div" [] [VText "Page not found"] => true
  | _ => false
  end.

(** The tags of the elements of a tree, in document order. *)
Fixpoint tags (v : VNode) : list string :=
  match v with
  | VElem tag _ children => tag :: flat_map tags children
  | _ => []
  end.

(** [[tag]] when the field is a non-empty string, else nothing. *)
Definition tagIf (field : option string) (tag : string) : list string :=
  if truthyOpt field then [tag] else [].

Definition linkHandlers (links : option (list ManifestNavLink))
  : list Handler :=
  match links with
  | Some l => map (fun link => HandleClick (link_slug link)) l
  | None => []
  end.

Definition footerLinksOf (d : ManifestResponse)
  : option (list ManifestNavLink) :=
  match footer (manifest d) with
  | Some f => footer_links f
  | None => None
  end.

Definition attrClasses (attrs : list Attr) : list string :=
  flat_map (fun a => match a with ClassName c => [c] | _ => [] end) attrs.

(** The class names of the elements of a tree, in document order. *)
Fixpoint classes (v : VNode) : list string :=
  match v with
  | VElem _ attrs children =>
      (attrClasses attrs ++ flat_map classes children)%list
  | _ => []
  end.

(** The class of the navigation button of the page on display. *)
Definition activeClass : string :=
  "px-2 py-1 rounded-md transition-colors bg-slate-100 text-slate-900".

(** * Properties *)

(** ** Path router *)

Lemma replaceLeadingSlash_String (c : ascii) (rest : string) :
  replaceLeadingSlash (String c rest) =
  if Ascii.eqb c "/" then rest else String c rest.
Proof.
  destruct c as [[] [] [] [] [] [] [] []]; reflexivity.
Qed.

Lemma startsWith_slash_String (c : ascii) (rest : string) :
  startsWith "/" (String c rest) = Ascii.eqb c "/".
Proof.
  cbn [startsWith]. rewrite andb_true_r. apply Ascii.eqb_sym.
Qed.

Lemma startsWith_2slash_String (c : ascii) (rest : string) :
  startsWith "//" (String c rest) = Ascii.eqb c "/" && startsWith "/" rest.
Proof.
  cbn [startsWith]. now rewrite Ascii.eqb_sym.
Qed.

Lemma slugToPath_cases (slug : string) :
  (slugToPath slug = "/" /\ (slug = "" \/ slug = "/" \/ slug = "home")) \/
  (slugToPath slug = "/" ++ replaceLeadingSlash slug /\
   slug <> "" /\ slug <> "/" /\ slug <> "home").
Proof.
  unfold slugToPath.
  destruct slug as [| c rest]; [left; auto |].
  cbn [truthy negb orb].
  destruct (String.eqb_spec (String c rest) "/") as [-> | H1];
    [left; auto |].
  destruct (String.eqb_spec (String c rest) "home") as [-> | H2];
    [left; auto |].
  right; repeat split; try assumption; discriminate.
Qed.

Lemma slugToPath_startsWith_slash (slug : string) :
  startsWith "/" (slugToPath slug) = true.
Proof.
  destruct (slugToPath_cases slug) as [[-> _] | [-> _]]; reflexivity.
Qed.

(** C3, as stated, fails: the slug ["//about"] is not one of the three
    special slugs, one slash is stripped and one is put back, so the result
    is ["//about"], which does have a doubled leading slash. *)
Lemma slugToPath_doubled_slash_counterexample :
  ~ (startsWith "/" (slugToPath "//about") = true /\
     startsWith "//" (slugToPath "//about") = false).
Proof.
  intros [_ H]. vm_compute in H. discriminate H.
Qed.

(** C3, amended: for every slug [s], [slugToPath s] starts with ["/"], and
    it starts with ["//"] exactly when [s] itself starts with ["//"]; so a
    slug without a doubled leading slash yields a path without one. *)
Theorem slugToPath_leading_slash (s : string) :
  startsWith "/" (slugToPath s) = true /\
  startsWith "//" (slugToPath s) = startsWith "//" s.
Proof.
  split; [apply slugToPath_startsWith_slash |].
  destruct (slugToPath_cases s) as [[-> Hs] | [-> _]].
  - destruct Hs as [-> | [-> | ->]]; reflexivity.
  - destruct s as [| c rest]; [reflexivity |].
    rewrite replaceLeadingSlash_String, startsWith_2slash_String.
    change (startsWith "//" ("/" ++ ?r)) with
      (Ascii.eqb "/" "/" && startsWith "/" r).
    rewrite Ascii.eqb_refl, andb_true_l.
    destruct (Ascii.eqb c "/") eqn:Hc; [reflexivity |].
    now rewrite startsWith_slash_String, Hc.
Qed.

(** C4: [slugToPath] sends the empty slug, ["/"] and ["home"] to ["/"];
    every other slug that begins with a slash, ["/" ++ t], is sent to
    ["/" ++ t] (one slash stripped, one prepended, further slashes of [t]
    kept), and every other slug [s] that does not is sent to ["/" ++ s]. *)
Theorem slugToPath_rules :
  slugToPath "" = "/" /\ slugToPath "/" = "/" /\ slugToPath "home" = "/" /\
  (forall s : string, s <> "" -> s <> "/" -> s <> "home" ->
     (forall t, s = "/" ++ t -> slugToPath s = "/" ++ t) /\
     (startsWith "/" s = false -> slugToPath s = "/" ++ s)) /\
  slugToPath "about" = "/about" /\ slugToPath "/about" = "/about".
Proof.
  repeat split; try reflexivity.
  - intros t ->.
    destruct (slugToPath_cases ("/" ++ t)) as [[_ Hs] | [-> _]].
    + destruct Hs as [Hs | [Hs | Hs]]; contradiction.
    + reflexivity.
  - intros Hno.
    destruct (slugToPath_cases s) as [[_ Hs] | [-> _]].
    + destruct Hs as [Hs | [Hs | Hs]]; contradiction.
    + destruct s as [| c rest]; [reflexivity |].
      rewrite startsWith_slash_String in Hno.
      now rewrite replaceLeadingSlash_String, Hno.
Qed.

(** The rules of C4 at the slugs ["//x"] and ["contact"]. *)
Lemma slugToPath_rules_witness :
  slugToPath "//x" = "//x" /\ slugToPath "contact" = "/contact".
Proof.
  destruct slugToPath_rules as (_ & _ & _ & Hother & _).
  split.
  - refine (proj1 (Hother "//x" _ _ _) "/x" eq_refl); discriminate.
  - refine (proj2 (Hother "contact" _ _ _) eq_refl); discriminate.
Defined.

(** ** Page composer *)

Section Find.
Context {A : Type} (f : A -> bool).

Lemma find_first (l : list A) (x : A) :
  find f l = Some x ->
  exists before after,
    l = (before ++ x :: after)%list /\ f x = true /\
    Forall (fun y => f y = false) before.
Proof.
  induction l as [| y l IH]; simpl; [discriminate |].
  destruct (f y) eqn:Hy.
  - intros [= ->]. exists [], l. auto.
  - intros Hfind. destruct (IH Hfind) as (before & after & -> & Hx & Hb).
    exists (y :: before), after. auto.
Qed.

Lemma find_none_Forall (l : list A) :
  find f l = None -> Forall (fun y => f y = false) l.
Proof.
  intros Hnone. apply Forall_forall. intros y Hin.
  exact (find_none f l Hnone y Hin).
Qed.
End Find.

Lemma Forall_no_match (path : string) (l : list ManifestPage) :
  Forall (fun page => (slugToPath (pg_slug page) =? path) = false) l ->
  Forall (fun page => ~ matches path page) l.
Proof.
  apply Forall_impl. intros page H. now apply String.eqb_neq.
Qed.

(** C6: on a non-empty page list the composer selects the first page, in
    list order, whose slug converted by [slugToPath] equals the current
    path; when no page matches, it selects the first page of the list.
    With pages [home; about] and path ["/about"] it selects [about]. *)
Theorem currentPage_selects (pages : list ManifestPage) (path : string) :
  pages <> [] ->
  (exists page, currentPage pages path = Some page /\
     ((exists before after,
         pages = (before ++ page :: after)%list /\ matches path page /\
         Forall (fun q => ~ matches path q) before)
      \/ (Forall (fun q => ~ matches path q) pages /\
          hd_error pages = Some page)))
  /\ (forall t1 s1 t2 s2,
        let home := {| pg_slug := "home"; pg_title := t1; pg_sections := s1 |} in
        let about := {| pg_slug := "about"; pg_title := t2; pg_sections := s2 |} in
        currentPage [home; about] "/about" = Some about).
Proof.
  intros Hne. split; [| reflexivity].
  destruct pages as [| p0 rest]; [contradiction |].
  unfold currentPage.
  change (hasPages (p0 :: rest)) with true. cbv iota.
  destruct (find _ (p0 :: rest)) as [page |] eqn:Hfind.
  - exists page. split; [reflexivity | left].
    destruct (find_first _ _ _ Hfind) as (before & after & Heq & Hm & Hb).
    exists before, after. repeat split; try assumption.
    + now apply String.eqb_eq.
    + now apply Forall_no_match.
  - exists p0. split; [reflexivity | right]. split; [| reflexivity].
    apply Forall_no_match. now apply find_none_Forall.
Qed.

(** C6 at the pages [home; about] and the path ["/missing"]: the first
    page is selected. *)
Lemma currentPage_selects_witness :
  exists page,
    currentPage
      [ {| pg_slug := "home"; pg_title := "Home"; pg_sections := [] |};
        {| pg_slug := "about"; pg_title := "About"; pg_sections := [] |} ]
      "/missing" = Some page.
Proof.
  destruct (currentPage_selects
      [ {| pg_slug := "home"; pg_title := "Home"; pg_sections := [] |};
        {| pg_slug := "about"; pg_title := "About"; pg_sections := [] |} ]
      "/missing") as [(page & Hsel & _) _]; [discriminate |].
  exists page. exact Hsel.
Defined.

(** What [pageBody] can be: the empty-list notice, or the sections of a
    selected page.  The "Page not found" branch is never taken, because
    [currentPage] falls back to the first page whenever pages exist. *)
Lemma pageBody_cases (pages : list ManifestPage) (path : string) :
  (pages = [] /\ pageBody pages path = NoPagesDefined) \/
  (exists page,
     In page pages /\ currentPage pages path = Some page /\
     pageBody pages path =
       VElem "div" [ClassName "space-y-8"]
         (map SectionRenderer (pg_sections page))).
Proof.
  destruct pages as [| p0 rest]; [left; auto | right].
  unfold pageBody, currentPage.
  change (hasPages (p0 :: rest)) with true. cbv iota.
  destruct (find _ (p0 :: rest)) as [page |] eqn:Hfind.
  - exists page. repeat split. now apply find_some in Hfind.
  - exists p0. repeat split. now left.
Qed.

(** C1 on the code: one page [home] with a hero section, current path
    ["/missing"].  No slug matches the path and the list is not empty, yet
    the view shows the sections of [home]; "Page not found" is not shown. *)
Theorem page_not_found_not_signalled :
  let hero := {| sec_type := "hero"; sec_heading := Some "Welcome";
                 sec_body := Some "Hi" |} in
  let home := {| pg_slug := "home"; pg_title := "Home";
                 pg_sections := [hero] |} in
  let d := {| manifest_id := 1; business_name := "Acme";
              page_title := Some "Acme"; meta_description := None;
              cta := None;
              manifest := {| nav := None; footer := None;
                             pages := Some [home] |} |} in
  let cfg := {| manifestUrl := Some "/manifest.json"; siteNameEnv := None |} in
  let state := {| data := Some d; isLoading := false; error := None;
                  currentPath := "/missing" |} in
  find (fun page => slugToPath (pg_slug page) =? "/missing") (pagesOf d) = None
  /\ hasPages (pagesOf d) = true
  /\ pageBody (pagesOf d) "/missing" =
       VElem "div" [ClassName "space-y-8"] [Hero "Welcome" "Hi"]
  /\ App cfg state =
       Layout None None "Acme" "/missing"
         (VElem "div" [ClassName "space-y-8"] [Hero "Welcome" "Hi"]).
Proof.
  repeat split.
Qed.

(** ** Section dispatcher *)

Lemma renderSection_unknown (section : ManifestSection) :
  ~ In (sec_type section) knownTypes -> renderSection section = VNothing.
Proof.
  intros Hnot. unfold renderSection.
  assert (H : forall k, In k knownTypes -> (sec_type section =? k) = false).
  { intros k Hk. apply String.eqb_neq. intros Heq. apply Hnot. now rewrite Heq. }
  cbv zeta.
  rewrite !H by (simpl; tauto). reflexivity.
Qed.

(** C7: the dispatcher chooses by equality on the section's type.  A
    ["hero"] is a heading and a body, the empty string standing for an
    absent field; ["text-block"], ["content-block"] and ["image-block"]
    leave out an absent heading or body (the image block adds its
    placeholder); ["profile-row"], ["testimonial"], ["faq"] and
    ["contact-form"] give a block that shows the type tag itself, again
    without absent fields; any other type gives [null]. *)
Theorem renderSection_dispatch (section : ManifestSection) :
  let type := sec_type section in
  let heading := sec_heading section in
  let body := sec_body section in
  (type = "hero" ->
   renderSection section =
     VElem "section" [ClassName "text-center space-y-4"]
       [ VElem "h1"
           [ClassName "text-3xl font-semibold tracking-tight md:text-4xl"]
           [VText (match heading with Some x => x | None => "" end)];
         VElem "p" [ClassName "text-slate-300 max-w-2xl mx-auto"]
           [VText (match body with Some x => x | None => "" end)] ]) /\
  (type = "text-block" \/ type = "content-block" ->
   exists hs bs,
     renderSection section = VElem "section" [ClassName "space-y-2"] [hs; bs] /\
     optionalSlot heading
       (fun x => VElem "h2" [ClassName "text-xl font-semibold tracking-tight"]
                   [VText x]) hs /\
     optionalSlot body
       (fun x => VElem "p" [ClassName "text-slate-300 whitespace-pre-line"]
                   [VText x]) bs) /\
  (type = "image-block" ->
   exists hs bs,
     renderSection section =
       VElem "section"
         [ClassName "space-y-2 border border-dashed border-slate-800 rounded-lg p-4"]
         [ hs; bs;
           VElem "div"
             [ClassName "h-40 rounded-md bg-slate-900/60 flex items-center justify-center text-slate-500 text-sm"]
             [VText "Image placeholder"] ] /\
     optionalSlot heading
       (fun x => VElem "h2" [ClassName "text-lg font-semibold tracking-tight"]
                   [VText x]) hs /\
     optionalSlot body
       (fun x => VElem "p" [ClassName "text-slate-300"] [VText x]) bs) /\
  (type = "profile-row" \/ type = "testimonial" \/ type = "faq" \/
   type = "contact-form" ->
   exists hs bs,
     renderSection section =
       VElem "section"
         [ClassName "space-y-2 border border-slate-800 rounded-lg p-4"]
         [ VElem "div"
             [ClassName "text-xs uppercase tracking-wide text-slate-500"]
             [VText type];
           hs; bs ] /\
     optionalSlot heading
       (fun x => VElem "h2" [ClassName "text-lg font-semibold tracking-tight"]
                   [VText x]) hs /\
     optionalSlot body
       (fun x => VElem "p" [ClassName "text-slate-300 whitespace-pre-line"]
                   [VText x]) bs) /\
  (~ In type knownTypes -> renderSection section = VNothing).
Proof.
  destruct section as [type heading body]. cbn [sec_type sec_heading sec_body].
  repeat apply conj.
  - intros ->. destruct heading, body; reflexivity.
  - intros Ht. do 2 eexists. split; [| split].
    + destruct Ht as [-> | ->]; reflexivity.
    + solve_slot.
    + solve_slot.
  - intros ->. do 2 eexists. split; [reflexivity | split].
    + solve_slot.
    + solve_slot.
  - intros Ht. do 2 eexists. split; [| split].
    + destruct Ht as [-> | [-> | [-> | ->]]]; reflexivity.
    + solve_slot.
    + solve_slot.
  - apply (renderSection_unknown {| sec_type := type; sec_heading := heading;
                                    sec_body := body |}).
Qed.

(** C7 at two sections: a hero with both fields, and a section of a type
    the dispatcher does not know. *)
Lemma renderSection_dispatch_witness :
  renderSection {| sec_type := "hero"; sec_heading := Some "Welcome";
                   sec_body := Some "Hi" |} = Hero "Welcome" "Hi" /\
  renderSection {| sec_type := "unknown-future-type"; sec_heading := None;
                   sec_body := None |} = VNothing.
Proof.
  split.
  - exact (proj1 (renderSection_dispatch
             {| sec_type := "hero"; sec_heading := Some "Welcome";
                sec_body := Some "Hi" |}) eq_refl).
  - refine (proj2 (proj2 (proj2 (proj2 (renderSection_dispatch
             {| sec_type := "unknown-future-type"; sec_heading := None;
                sec_body := None |})))) _).
    cbv [knownTypes In sec_type].
    intros H; repeat (destruct H as [H | H]; [discriminate H |]); exact H.
Defined.

(** ** Manifest client *)

(** C2, as stated, fails: a response with status 404 whose body is a JSON
    manifest is stored like any other; the view shows the site, not the
    failure message. *)
Lemma non_2xx_json_counterexample :
  let d := {| manifest_id := 7; business_name := "Acme"; page_title := None;
              meta_description := None; cta := None;
              manifest := {| nav := None; footer := None;
                             pages := Some [] |} |} in
  let cfg := {| manifestUrl := Some "/manifest.json"; siteNameEnv := None |} in
  let h := {| back := []; pathname := "/"; forward := [] |} in
  let document := {| doc_head := [] |} in
  let res := {| status := 404; body := Json (Some d) |} in
  let v := settle cfg (Fulfilled res) (mount cfg h document) in
  ok res = false /\
  data (st v) = Some d /\ error (st v) = None /\
  App cfg (st v) = Layout None None "Acme" "/" NoPagesDefined /\
  App cfg (st v) <> FailedView.
Proof.
  repeat split. discriminate.
Qed.

(** C2, amended: once the fetch has been started, a network error or a
    body that is not JSON ends in the failed state, with the generic
    message on display and no manifest stored, whatever the status code;
    and a manifest is stored only from a response with a JSON body, of any
    status code, for the code does not inspect the status. *)
Theorem fetch_settles (cfg : Config) (h : History) (d : Document)
  (outcome : Settled Response) :
  truthyOpt (manifestUrl cfg) = true ->
  let v := settle cfg outcome (mount cfg h d) in
  isLoading (st v) = false /\
  (outcome = Rejected \/
   (exists status, outcome = Fulfilled {| status := status; body := NotJson |}) ->
   data (st v) = None /\
   error (st v) = Some "Failed to load site configuration." /\
   App cfg (st v) = FailedView) /\
  (forall m, data (st v) = Some m ->
     exists status,
       outcome = Fulfilled {| status := status; body := Json (Some m) |}).
Proof.
  intros Hurl. unfold settle, mount, fetchStart, App. cbn [st].
  rewrite Hurl. cbn [negb].
  split; [destruct outcome as [[status [| json]] |]; reflexivity |].
  split.
  - intros [-> | [status ->]]; cbn; auto.
  - intros m. destruct outcome as [[status [| json]] |]; cbn;
      try discriminate.
    intros ->. now exists status.
Qed.

(** C2 amended, at a response with status 500 and a body that is not JSON. *)
Lemma fetch_settles_witness :
  let cfg := {| manifestUrl := Some "/manifest.json"; siteNameEnv := None |} in
  let h := {| back := []; pathname := "/"; forward := [] |} in
  let document := {| doc_head := [] |} in
  App cfg (st (settle cfg (Fulfilled {| status := 500; body := NotJson |})
                 (mount cfg h document))) = FailedView.
Proof.
  intros cfg h document.
  refine (proj2 (proj2 (proj1 (proj2
    (fetch_settles cfg h document
       (Fulfilled {| status := 500; body := NotJson |}) eq_refl)) _))).
  right. now exists 500.
Defined.

(** ** Navigation *)

Lemma orDefault_slash (path : string) :
  orDefault path "/" = if path =? "" then "/" else path.
Proof.
  destruct path; reflexivity.
Qed.

(** C5, as stated, fails for a path the browser refuses.  The path
    ["//about"], which [slugToPath] returns for the slug ["//about"], names
    another origin: [pushState] throws, no entry is pushed and the current
    path stays ["/"]. *)
Lemma pushState_refused_counterexample :
  let v := {| st := {| data := None; isLoading := false; error := None;
                       currentPath := "/" |};
              hist := {| back := []; pathname := "/"; forward := [] |};
              doc := {| doc_head := [] |};
              inFlight := false |} in
  slugToPath "//about" = "//about" /\
  "//about" <> currentPath (st v) /\
  pushState exampleBrowser "//about" (hist v) = None /\
  hist (handleNavigate exampleBrowser "//about" v) = hist v /\
  currentPath (st (handleNavigate exampleBrowser "//about" v)) <> "//about".
Proof.
  repeat split; discriminate.
Qed.

(** C5, amended: let [normalized] be the requested path, or ["/"] when it
    is empty.  If it equals the current path, [handleNavigate] changes
    nothing: the view, and with it the history, stay as they are.  If it
    differs and the browser accepts it, exactly one entry is pushed on top
    of the current one, with the pathname the browser gives it, and the
    current path becomes [normalized]; the fetched data, the loading and
    error state and the document are those of before, the view is not
    loaded anew.  If it differs and [pushState] throws, nothing changes
    either. *)
Theorem handleNavigate_spec (b : Browser) (path : string) (v : View) :
  let normalized := if path =? "" then "/" else path in
  (normalized = currentPath (st v) -> handleNavigate b path v = v) /\
  (normalized <> currentPath (st v) ->
   forall p, resolve b (pathname (hist v)) normalized = Some p ->
   let v' := handleNavigate b path v in
   currentPath (st v') = normalized /\
   pushState b normalized (hist v) = Some (hist v') /\
   pathname (hist v') = p /\
   back (hist v') = pathname (hist v) :: back (hist v) /\
   forward (hist v') = [] /\
   length (back (hist v')) = S (length (back (hist v))) /\
   data (st v') = data (st v) /\
   isLoading (st v') = isLoading (st v) /\
   error (st v') = error (st v) /\
   doc v' = doc v /\ inFlight v' = inFlight v) /\
  (normalized <> currentPath (st v) ->
   resolve b (pathname (hist v)) normalized = None ->
   handleNavigate b path v = v).
Proof.
  cbv zeta. unfold handleNavigate, pushState. rewrite orDefault_slash.
  split; [| split].
  - intros Hcmp. apply String.eqb_eq in Hcmp. now rewrite Hcmp.
  - intros Hcmp p Hp. apply String.eqb_neq in Hcmp. rewrite Hcmp, Hp.
    repeat split.
  - intros Hcmp Hp. apply String.eqb_neq in Hcmp. now rewrite Hcmp, Hp.
Qed.

(** C5 amended, on a view at ["/"]: navigating to ["/"] (also as the empty
    path) changes nothing; navigating to ["/about"] pushes one entry;
    navigating to ["//about"] is refused and changes nothing. *)
Lemma handleNavigate_spec_witness :
  let v := {| st := {| data := None; isLoading := false; error := None;
                       currentPath := "/" |};
              hist := {| back := []; pathname := "/"; forward := ["/old"] |};
              doc := {| doc_head := [] |};
              inFlight := false |} in
  handleNavigate exampleBrowser "" v = v /\
  currentPath (st (handleNavigate exampleBrowser "/about" v)) = "/about" /\
  back (hist (handleNavigate exampleBrowser "/about" v)) = ["/"] /\
  handleNavigate exampleBrowser "//about" v = v.
Proof.
  intros v. split; [| split; [| split]].
  - exact (proj1 (handleNavigate_spec exampleBrowser "" v) eq_refl).
  - refine (proj1 (proj1 (proj2 (handleNavigate_spec exampleBrowser "/about" v))
                     _ "/about" eq_refl)).
    discriminate.
  - refine (proj1 (proj2 (proj2 (proj2
              (proj1 (proj2 (handleNavigate_spec exampleBrowser "/about" v))
                 _ "/about" eq_refl))))).
    discriminate.
  - refine (proj2 (proj2 (handleNavigate_spec exampleBrowser "//about" v))
              _ eq_refl).
    discriminate.
Defined.

(** ** Document metadata *)

Lemma isDescription_inv (c : HeadChild) :
  isDescription c = true ->
  exists content, c = descriptionMeta content.
Proof.
  destruct c as [text | [name content] | tag]; simpl; try discriminate.
  intros Hname. apply String.eqb_eq in Hname. subst name.
  now exists content.
Qed.

Lemma querySelector_None (head : list HeadChild) :
  querySelector head = None -> filter isDescription head = [].
Proof.
  induction head as [| c rest IH]; simpl; [reflexivity |].
  destruct (isDescription c); [discriminate |].
  destruct (querySelector rest); [discriminate | auto].
Qed.

Lemma querySelector_Some (head : list HeadChild) (i : nat) :
  querySelector head = Some i ->
  exists c, nth_error head i = Some c /\ isDescription c = true /\
            filter isDescription head <> [].
Proof.
  revert i. induction head as [| c rest IH]; simpl; [discriminate |].
  intros i. destruct (isDescription c) eqn:Hc.
  - intros [= <-]. exists c. repeat split; [assumption | discriminate].
  - destruct (querySelector rest) as [j |]; [| discriminate].
    intros [= <-]. destruct (IH j eq_refl) as (c' & Hn & Hd & Hf).
    exists c'. auto.
Qed.

Lemma setContent_cons_S (j : nat) (v : string) (c : HeadChild)
  (rest : list HeadChild) :
  setContent (S j) v (c :: rest) = c :: setContent j v rest.
Proof.
  destruct c; reflexivity.
Qed.

Lemma isDescription_setContent (i : nat) (v : string) (head : list HeadChild) :
  map isDescription (setContent i v head) = map isDescription head.
Proof.
  revert i. induction head as [| c rest IH]; intros [| j]; simpl;
    try reflexivity; destruct c; simpl; now rewrite ?IH.
Qed.

Lemma filter_length_map {A : Type} (f : A -> bool) (l l' : list A) :
  map f l = map f l' -> length (filter f l) = length (filter f l').
Proof.
  revert l'. induction l as [| x l IH]; intros [| y l']; simpl;
    try discriminate; [reflexivity |].
  intros [= Hxy Hrest]. rewrite Hxy.
  destruct (f y); simpl; auto.
Qed.

Lemma length_setContent (i : nat) (v : string) (head : list HeadChild) :
  length (setContent i v head) = length head.
Proof.
  rewrite <- (length_map isDescription), isDescription_setContent.
  apply length_map.
Qed.

Lemma nth_error_setContent_other (i j : nat) (v : string)
  (head : list HeadChild) :
  j <> i -> nth_error (setContent i v head) j = nth_error head j.
Proof.
  revert i j. induction head as [| c rest IH]; intros [| i] [| j] Hne;
    try contradiction; try reflexivity; destruct c; simpl;
    try reflexivity; apply IH; congruence.
Qed.

Lemma setContent_appended (v : string) (head : list HeadChild)
  (m : MetaElement) :
  setContent (length head) v (head ++ [HMeta m]) =
  (head ++ [HMeta {| meta_name := meta_name m; meta_content := v |}])%list.
Proof.
  induction head as [| c rest IH]; simpl; [reflexivity |].
  destruct c; now rewrite IH.
Qed.

Lemma find_setContent (i : nat) (v : string) (head : list HeadChild) :
  querySelector head = Some i ->
  find isDescription (setContent i v head) = Some (descriptionMeta v).
Proof.
  revert i. induction head as [| c rest IH]; simpl; [discriminate |].
  intros i. destruct (isDescription c) eqn:Hc.
  - intros [= <-]. destruct (isDescription_inv c Hc) as [content ->].
    reflexivity.
  - destruct (querySelector rest) as [j |]; [| discriminate].
    intros [= <-]. rewrite setContent_cons_S. simpl. rewrite Hc. now apply IH.
Qed.

Lemma find_appended (v : string) (head : list HeadChild) :
  querySelector head = None ->
  find isDescription (head ++ [descriptionMeta v]) = Some (descriptionMeta v).
Proof.
  induction head as [| c rest IH]; simpl; [reflexivity |].
  destruct (isDescription c); [discriminate |].
  destruct (querySelector rest); [discriminate | auto].
Qed.

(** *** The title element *)

Lemma titleText_setTitle (t : string) (head : list HeadChild) :
  titleText (setTitle t head) = Some t.
Proof.
  induction head as [| c rest IH]; [reflexivity |].
  destruct c; simpl; auto.
Qed.

Lemma setTitle_twice (t u : string) (head : list HeadChild) :
  setTitle t (setTitle u head) = setTitle t head.
Proof.
  induction head as [| c rest IH]; [reflexivity |].
  destruct c; simpl; now rewrite ?IH.
Qed.

Lemma setTitle_app (t : string) (head more : list HeadChild) :
  titleText head <> None -> setTitle t (head ++ more) = (setTitle t head ++ more)%list.
Proof.
  induction head as [| c rest IH]; [intros H; now contradiction H |].
  destruct c; simpl; intros H; try reflexivity; now rewrite IH.
Qed.

Lemma setTitle_setContent (t : string) (i : nat) (v : string)
  (head : list HeadChild) :
  setTitle t (setContent i v head) = setContent i v (setTitle t head).
Proof.
  revert i. induction head as [| c rest IH]; intros i.
  - destruct i as [| [| j]]; reflexivity.
  - destruct i, c; simpl; try reflexivity; now rewrite IH.
Qed.

Lemma querySelector_setTitle (t : string) (head : list HeadChild) :
  querySelector (setTitle t head) = querySelector head.
Proof.
  induction head as [| c rest IH]; [reflexivity |].
  destruct c as [text | m | tag]; simpl; try reflexivity;
    try (now rewrite IH).
Qed.

(** Writing the title leaves every child alone that [keep] selects, as
    long as [keep] selects no title element. *)
Lemma filter_setTitle (keep : HeadChild -> bool) (t : string)
  (head : list HeadChild) :
  (forall text, keep (HTitle text) = false) ->
  filter keep (setTitle t head) = filter keep head.
Proof.
  intros Hkeep. induction head as [| c rest IH]; simpl.
  - now rewrite Hkeep.
  - destruct c; simpl; rewrite ?Hkeep; try reflexivity;
      now rewrite IH.
Qed.

Lemma titleText_setContent (i : nat) (v : string) (head : list HeadChild) :
  titleText (setContent i v head) = titleText head.
Proof.
  revert i. induction head as [| c rest IH]; intros [| j];
    try reflexivity; destruct c; simpl; auto.
Qed.

Lemma titleText_app (head more : list HeadChild) :
  titleText head <> None -> titleText (head ++ more) = titleText head.
Proof.
  induction head as [| c rest IH]; [intros H; now contradiction H |].
  destruct c; simpl; auto.
Qed.

(** *** One run of the effect *)

Lemma orElse_expectedTitle (cfg : Config) (m : ManifestResponse) :
  orElse (page_title m) (orElse (siteNameEnv cfg) (business_name m)) =
  expectedTitle cfg m.
Proof.
  unfold expectedTitle, orElse.
  destruct (page_title m) as [[| c t] |];
    destruct (siteNameEnv cfg) as [[| c' t'] |]; reflexivity.
Qed.

Lemma truthyOpt_true (o : option string) :
  truthyOpt o = true -> exists x, o = Some x /\ x <> "".
Proof.
  destruct o as [[| c x] |]; try discriminate.
  intros _. exists (String c x). split; [reflexivity | discriminate].
Qed.

(** When the description is empty or absent, the effect writes the title
    and nothing else. *)
Lemma metadataEffect_no_description (cfg : Config) (m : ManifestResponse)
  (d : Document) :
  truthyOpt (meta_description m) = false ->
  doc_head (metadataEffect cfg (Some m) d) =
  setTitle (expectedTitle cfg m) (doc_head d).
Proof.
  intros Hd. unfold metadataEffect. rewrite Hd, orElse_expectedTitle.
  reflexivity.
Qed.

(** With a non-empty description, the title is written and then an
    existing description element is updated where it stands, or else one
    is appended. *)
Lemma metadataEffect_description (cfg : Config) (m : ManifestResponse)
  (d : Document) (x : string) :
  meta_description m = Some x -> x <> "" ->
  doc_head (metadataEffect cfg (Some m) d) =
    let titled := setTitle (expectedTitle cfg m) (doc_head d) in
    match querySelector (doc_head d) with
    | Some i => setContent i x titled
    | None => (titled ++ [descriptionMeta x])%list
    end.
Proof.
  intros Hm Hx. unfold metadataEffect.
  rewrite Hm, orElse_expectedTitle, querySelector_setTitle.
  destruct x as [| c x]; [contradiction |]. cbn [truthyOpt truthy nullish].
  destruct (querySelector (doc_head d)); cbn [doc_head]; [reflexivity |].
  apply setContent_appended.
Qed.

Lemma metadataEffect_titleText (cfg : Config) (m : ManifestResponse)
  (d : Document) :
  titleText (doc_head (metadataEffect cfg (Some m) d)) =
  Some (expectedTitle cfg m).
Proof.
  destruct (truthyOpt (meta_description m)) eqn:Hd.
  - destruct (truthyOpt_true _ Hd) as (x & Hm & Hx).
    rewrite (metadataEffect_description cfg m d x Hm Hx). cbv zeta.
    destruct (querySelector (doc_head d)).
    + now rewrite titleText_setContent, titleText_setTitle.
    + rewrite titleText_app; rewrite titleText_setTitle;
        [reflexivity | discriminate].
  - rewrite (metadataEffect_no_description cfg m d Hd).
    apply titleText_setTitle.
Qed.

Lemma metadataEffect_title (cfg : Config) (m : ManifestResponse)
  (d : Document) :
  doc_title (metadataEffect cfg (Some m) d) =
  stripAndCollapse (expectedTitle cfg m).
Proof.
  unfold doc_title. now rewrite metadataEffect_titleText.
Qed.

(** *** The description elements *)

Lemma filter_setContent_first (i : nat) (x : string) (head : list HeadChild) :
  querySelector head = Some i ->
  filter isDescription (setContent i x head) =
  descriptionMeta x :: tl (filter isDescription head).
Proof.
  revert i. induction head as [| c rest IH]; simpl; [discriminate |].
  intros i. destruct (isDescription c) eqn:Hc.
  - intros [= <-]. destruct (isDescription_inv c Hc) as [content ->].
    reflexivity.
  - destruct (querySelector rest) as [j |]; [| discriminate].
    intros [= <-]. rewrite setContent_cons_S. simpl. rewrite Hc. now apply IH.
Qed.

Lemma descriptions_step (cfg : Config) (m : ManifestResponse) (d : Document)
  (x : string) :
  meta_description m = Some x -> x <> "" ->
  filter isDescription (doc_head (metadataEffect cfg (Some m) d)) =
  descriptionMeta x :: tl (filter isDescription (doc_head d)).
Proof.
  intros Hm Hx. rewrite (metadataEffect_description cfg m d x Hm Hx). cbv zeta.
  destruct (querySelector (doc_head d)) as [i |] eqn:Hq.
  - rewrite <- setTitle_setContent, filter_setTitle by reflexivity.
    now apply filter_setContent_first.
  - rewrite filter_app, filter_setTitle by reflexivity.
    now rewrite (querySelector_None _ Hq).
Qed.

Lemma countDescriptions_step (cfg : Config) (m : ManifestResponse)
  (d : Document) :
  countDescriptions (metadataEffect cfg (Some m) d) =
    if (0 <? countDescriptions d)%nat then countDescriptions d
    else if truthyOpt (meta_description m) then 1 else 0.
Proof.
  unfold countDescriptions.
  destruct (truthyOpt (meta_description m)) eqn:Hd.
  - destruct (truthyOpt_true _ Hd) as (x & Hm & Hx).
    rewrite (descriptions_step cfg m d x Hm Hx).
    destruct (filter isDescription (doc_head d)); reflexivity.
  - rewrite (metadataEffect_no_description cfg m d Hd).
    rewrite filter_setTitle by reflexivity.
    destruct (filter isDescription (doc_head d)); reflexivity.
Qed.

Lemma countDescriptions_loadAll (cfg : Config) (ms : list ManifestResponse)
  (d : Document) :
  countDescriptions (loadAll cfg ms d) =
    if (0 <? countDescriptions d)%nat then countDescriptions d
    else if existsb (fun m => truthyOpt (meta_description m)) ms
         then 1 else 0.
Proof.
  unfold loadAll. revert d.
  induction ms as [| m ms IH]; intros d; cbn [fold_left existsb].
  - destruct (countDescriptions d); reflexivity.
  - rewrite IH, countDescriptions_step.
    destruct (countDescriptions d) as [| n]; [| reflexivity].
    destruct (truthyOpt (meta_description m)); reflexivity.
Qed.

(** *** The children that are no title *)

Lemma querySelector_untitled (head : list HeadChild) (i : nat) (x : string) :
  querySelector head = Some i ->
  exists i', querySelector (untitled head) = Some i' /\
             untitled (setContent i x head) = setContent i' x (untitled head).
Proof.
  revert i. induction head as [| c rest IH]; simpl; [discriminate |].
  intros i. destruct (isDescription c) eqn:Hc.
  - intros [= <-]. destruct (isDescription_inv c Hc) as [content ->].
    exists 0. split; reflexivity.
  - destruct (querySelector rest) as [j |]; [| discriminate].
    intros [= <-]. destruct (IH j eq_refl) as (j' & Hq & Hset).
    rewrite setContent_cons_S. unfold untitled in *. cbn [filter].
    destruct (negb (isTitle c)) eqn:Ht.
    + exists (S j'). cbn [querySelector]. rewrite Hc, Hq.
      split; [reflexivity |]. now rewrite setContent_cons_S, Hset.
    + exists j'. split; assumption.
Qed.

Lemma querySelector_untitled_None (head : list HeadChild) :
  querySelector head = None -> querySelector (untitled head) = None.
Proof.
  induction head as [| c rest IH]; simpl; [reflexivity |].
  destruct (isDescription c) eqn:Hc; [discriminate |].
  destruct (querySelector rest); [discriminate |]. intros _.
  unfold untitled in *. cbn [filter].
  destruct (negb (isTitle c)); [| now apply IH].
  cbn [querySelector]. rewrite Hc. now rewrite IH.
Qed.

(** Among the children that are no title elements, the effect is the
    update or the appending of the description and nothing else. *)
Lemma untitled_step (cfg : Config) (m : ManifestResponse) (d : Document)
  (x : string) :
  meta_description m = Some x -> x <> "" ->
  untitled (doc_head (metadataEffect cfg (Some m) d)) =
    match querySelector (untitled (doc_head d)) with
    | Some i => setContent i x (untitled (doc_head d))
    | None => (untitled (doc_head d) ++ [descriptionMeta x])%list
    end.
Proof.
  intros Hm Hx. rewrite (metadataEffect_description cfg m d x Hm Hx). cbv zeta.
  destruct (querySelector (doc_head d)) as [i |] eqn:Hq.
  - destruct (querySelector_untitled _ i x Hq) as (i' & Hq' & Hset).
    rewrite Hq', <- Hset, <- setTitle_setContent.
    unfold untitled. now rewrite filter_setTitle.
  - rewrite (querySelector_untitled_None _ Hq).
    unfold untitled. rewrite filter_app, filter_setTitle by reflexivity.
    reflexivity.
Qed.

(** C8, as stated, fails.  In its count: a manifest whose description is
    the empty string, loaded twice into a document without a description
    element, leaves none, and a document that starts with two such
    elements keeps both, only the first being updated.  In its title: the
    title is read back with its whitespace stripped and collapsed, so a
    page title with spaces around it is not what [document.title] gives. *)
Lemma description_count_counterexample :
  let cfg := {| manifestUrl := Some "/manifest.json"; siteNameEnv := None |} in
  let m t x := {| manifest_id := 1; business_name := "Acme";
                  page_title := Some t; meta_description := Some x;
                  cta := None;
                  manifest := {| nav := None; footer := None;
                                 pages := Some [] |} |} in
  countDescriptions
    (loadAll cfg [m "Acme" ""; m "Acme" ""] {| doc_head := [] |}) = 0 /\
  countDescriptions
    (loadAll cfg [m "Acme" ""; m "Acme" ""] {| doc_head := [] |}) <> 1 /\
  filter isDescription
    (doc_head
       (loadAll cfg [m "Acme" "new"]
          {| doc_head := [descriptionMeta "a"; descriptionMeta "b"] |})) =
    [descriptionMeta "new"; descriptionMeta "b"] /\
  doc_title
    (metadataEffect cfg (Some (m "  Acme   Site " "")) {| doc_head := [] |}) =
    "Acme Site" /\
  doc_title
    (metadataEffect cfg (Some (m "  Acme   Site " "")) {| doc_head := [] |}) <>
    "  Acme   Site ".
Proof.
  repeat split; discriminate.
Qed.

(** C8, amended.  A load writes into the title element, creating it when
    the head has none, the page title when that is non-empty, else the
    override when that is non-empty, else the business name;
    [document.title] then reads that text with its whitespace stripped and
    collapsed.  After any loads the number of description elements is the
    number the document began with, or, when it began with none, one if
    some load had a non-empty description and zero otherwise.  A load with
    a non-empty description [x] leaves ["description" := x] as the first
    description element, the further ones as they were; among the children
    of the head that are no title elements, an existing description is
    updated where it stands, all others untouched, and else one is
    appended. *)
Theorem metadata_after_loads (cfg : Config) (ms : list ManifestResponse)
  (m : ManifestResponse) (d : Document) :
  titleText (doc_head (metadataEffect cfg (Some m) d)) =
    Some (expectedTitle cfg m) /\
  doc_title (metadataEffect cfg (Some m) d) =
    stripAndCollapse (expectedTitle cfg m) /\
  doc_title (loadAll cfg (ms ++ [m]) d) =
    stripAndCollapse (expectedTitle cfg m) /\
  countDescriptions (loadAll cfg ms d) =
    (if (0 <? countDescriptions d)%nat then countDescriptions d
     else if existsb (fun m' => truthyOpt (meta_description m')) ms
          then 1 else 0) /\
  (forall x, meta_description m = Some x -> x <> "" ->
     let head := untitled (doc_head d) in
     let head' := untitled (doc_head (metadataEffect cfg (Some m) d)) in
     filter isDescription (doc_head (metadataEffect cfg (Some m) d)) =
       descriptionMeta x :: tl (filter isDescription (doc_head d)) /\
     find isDescription head' = Some (descriptionMeta x) /\
     match querySelector head with
     | Some i =>
         length head' = length head /\
         (forall j, j <> i -> nth_error head' j = nth_error head j)
     | None => head' = (head ++ [descriptionMeta x])%list
     end).
Proof.
  split; [apply metadataEffect_titleText |].
  split; [apply metadataEffect_title |].
  split.
  { unfold loadAll. rewrite fold_left_app. apply metadataEffect_title. }
  split; [apply countDescriptions_loadAll |].
  intros x Hm Hx. cbv zeta.
  split; [now apply descriptions_step |].
  rewrite (untitled_step cfg m d x Hm Hx).
  destruct (querySelector (untitled (doc_head d))) as [i |] eqn:Hq.
  - split; [now apply find_setContent |].
    split; [apply length_setContent |].
    intros j Hj. now apply nth_error_setContent_other.
  - split; [now apply find_appended | reflexivity].
Qed.

(** C8 amended, at a document that already holds a description: three
    loads leave one element, holding the last description. *)
Lemma metadata_after_loads_witness :
  let cfg := {| manifestUrl := Some "/manifest.json"; siteNameEnv := None |} in
  let m := {| manifest_id := 1; business_name := "Acme";
              page_title := Some "Acme"; meta_description := Some "fresh";
              cta := None;
              manifest := {| nav := None; footer := None;
                             pages := Some [] |} |} in
  let d := {| doc_head := [HOther "link"; descriptionMeta "stale"] |} in
  countDescriptions (loadAll cfg [m; m; m] d) = 1 /\
  filter isDescription (doc_head (metadataEffect cfg (Some m) d)) =
    [descriptionMeta "fresh"].
Proof.
  intros cfg m d.
  destruct (metadata_after_loads cfg [m; m; m] m d)
    as (_ & _ & _ & Hcount & Hone).
  split; [exact Hcount |].
  refine (proj1 (Hone "fresh" eq_refl _)). discriminate.
Defined.

(** C10: when the manifest's description is absent or empty, the effect
    still sets the title, and it neither creates a description element nor
    changes one: the description elements, and with them all children of
    the head that are no title elements, are those of before. *)
Theorem metadata_without_description (cfg : Config) (m : ManifestResponse)
  (d : Document) :
  meta_description m = None \/ meta_description m = Some "" ->
  let d' := metadataEffect cfg (Some m) d in
  titleText (doc_head d') = Some (expectedTitle cfg m) /\
  doc_title d' = stripAndCollapse (expectedTitle cfg m) /\
  filter isDescription (doc_head d') = filter isDescription (doc_head d) /\
  untitled (doc_head d') = untitled (doc_head d).
Proof.
  intros Hd. cbv zeta.
  split; [apply metadataEffect_titleText |].
  split; [apply metadataEffect_title |].
  assert (Hfalse : truthyOpt (meta_description m) = false)
    by (destruct Hd as [-> | ->]; reflexivity).
  rewrite (metadataEffect_no_description cfg m d Hfalse).
  unfold untitled. now rewrite !filter_setTitle.
Qed.

(** C10 at a manifest without description and a document that holds a
    description element and no title. *)
Lemma metadata_without_description_witness :
  let cfg := {| manifestUrl := Some "/manifest.json";
                siteNameEnv := Some "Override" |} in
  let m := {| manifest_id := 1; business_name := "Acme";
              page_title := None; meta_description := None; cta := None;
              manifest := {| nav := None; footer := None;
                             pages := Some [] |} |} in
  let d := {| doc_head := [descriptionMeta "kept"] |} in
  doc_title (metadataEffect cfg (Some m) d) = "Override" /\
  filter isDescription (doc_head (metadataEffect cfg (Some m) d)) =
    [descriptionMeta "kept"].
Proof.
  intros cfg m d.
  destruct (metadata_without_description cfg m d (or_introl eq_refl))
    as (_ & Htitle & Hdesc & _).
  split; [exact Htitle | exact Hdesc].
Defined.

(** ** The current path stays an absolute path *)

Lemma absolute_nonempty (p : string) : absolute p -> p <> "".
Proof.
  intros H ->. discriminate H.
Qed.

Lemma orDefault_absolute (p : string) :
  pathnameLike p = true -> absolute (orDefault p "/").
Proof.
  unfold pathnameLike, orDefault, absolute.
  destruct p as [| c rest]; [reflexivity |].
  cbn [truthy negb orb]. auto.
Qed.

Lemma absolute_pathnameLike (p : string) :
  absolute p -> pathnameLike p = true.
Proof.
  unfold absolute, pathnameLike. intros ->. apply orb_true_r.
Qed.

Lemma handlers_renderSection (section : ManifestSection) :
  handlers (renderSection section) = [].
Proof.
  destruct section as [type heading body]. unfold renderSection.
  cbn [sec_type sec_heading sec_body].
  repeat match goal with
         | |- context [if ?b then _ else _] => destruct b
         end;
    try reflexivity;
    destruct heading as [[| c1 h] |], body as [[| c2 b] |]; reflexivity.
Qed.

Lemma handlers_pageBody (pages : list ManifestPage) (path : string) :
  handlers (pageBody pages path) = [].
Proof.
  destruct (pageBody_cases pages path) as [[_ ->] | (page & _ & _ & ->)];
    [reflexivity |].
  cbn [handlers attrHandlers flat_map app].
  induction (pg_sections page) as [| s rest IH]; [reflexivity |].
  cbn [map flat_map]. unfold SectionRenderer at 1.
  now rewrite handlers_renderSection, IH.
Qed.

Lemma handlers_map (f : ManifestNavLink -> VNode)
  (links : list ManifestNavLink) :
  (forall link, Forall shellHandler (handlers (f link))) ->
  Forall shellHandler (flat_map handlers (map f links)).
Proof.
  intros Hf. induction links as [| link rest IH]; [constructor |].
  cbn [map flat_map]. apply Forall_app. auto.
Qed.

Lemma handlers_whenLinks (links : option (list ManifestNavLink))
  (v : list ManifestNavLink -> VNode) :
  (forall l, Forall shellHandler (handlers (v l))) ->
  Forall shellHandler (handlers (whenLinks links v)).
Proof.
  intros Hv. unfold whenLinks.
  destruct links as [l |]; [| constructor].
  destruct (0 <? length l)%nat; [apply Hv | constructor].
Qed.

Lemma handlers_Layout (navLinks : option (list ManifestNavLink))
  (footer : option ManifestFooter) (siteName currentPath : string)
  (children : VNode) :
  handlers children = [] ->
  Forall shellHandler
    (handlers (Layout navLinks footer siteName currentPath children)).
Proof.
  intros Hc. unfold Layout.
  cbn [handlers attrHandlers flat_map app]. rewrite Hc.
  rewrite ?app_nil_r. cbn [app].
  constructor; [reflexivity |]. apply Forall_app; split.
  - apply handlers_whenLinks. intros l.
    cbn [handlers attrHandlers flat_map app].
    apply handlers_map. intros link. repeat constructor.
  - destruct footer as [f |]; [| constructor].
    cbn [handlers attrHandlers flat_map app].
    destruct (footer_text f); cbn [childOpt handlers app];
      rewrite ?app_nil_r; apply handlers_whenLinks; intros l;
      cbn [handlers attrHandlers flat_map app];
      apply handlers_map; intros link; repeat constructor.
Qed.

Lemma handlers_App (cfg : Config) (state : AppState) :
  Forall shellHandler (handlers (App cfg state)).
Proof.
  unfold App.
  destruct (negb (truthyOpt (manifestUrl cfg))); [constructor |].
  destruct (isLoading state && negb (isSome (data state)));
    [constructor |].
  destruct (truthyOpt (error state) && negb (isSome (data state))).
  { destruct (error state); constructor. }
  destruct (data state) as [d |]; [| constructor].
  apply handlers_Layout, handlers_pageBody.
Qed.

Lemma historyOk_entries (h : History) :
  Forall (fun p => pathnameLike p = true) (entries h) -> historyOk h.
Proof.
  unfold entries, historyOk. intros H.
  apply Forall_app in H. destruct H as [Hb Hrest].
  inversion Hrest; subst.
  repeat split; try assumption.
  rewrite <- (rev_involutive (back h)). now apply Forall_rev.
Qed.

Lemma historyOk_goBack (h h' : History) :
  historyOk h -> goBack h = Some h' -> historyOk h'.
Proof.
  unfold goBack, historyOk. intros (Hb & Hp & Hf).
  destruct (back h) as [| p rest]; [discriminate |].
  intros [= <-]. cbn. inversion Hb; subst. auto.
Qed.

Lemma historyOk_goForward (h h' : History) :
  historyOk h -> goForward h = Some h' -> historyOk h'.
Proof.
  unfold goForward, historyOk. intros (Hb & Hp & Hf).
  destruct (forward h) as [| p rest]; [discriminate |].
  intros [= <-]. cbn. inversion Hf; subst. auto.
Qed.

Lemma pathInvariant_mount (cfg : Config) (h : History) (d : Document) :
  historyOk h -> pathInvariant (mount cfg h d).
Proof.
  intros Hh. split; [| exact Hh].
  unfold mount, fetchStart. cbn [st].
  destruct (negb (truthyOpt (manifestUrl cfg))); cbn;
    apply orDefault_absolute, Hh.
Qed.

Lemma pathInvariant_handleNavigate (b : Browser) (path : string) (v : View) :
  absoluteBrowser b ->
  pathnameLike path = true ->
  pathInvariant v -> pathInvariant (handleNavigate b path v).
Proof.
  intros Hbrowser Hp [Hcur (Hb & Hloc & Hf)]. unfold handleNavigate, pushState.
  destruct (orDefault path "/" =? currentPath (st v));
    [now split |].
  pose proof (orDefault_absolute path Hp) as Habs.
  destruct (resolve b (pathname (hist v)) (orDefault path "/")) as [p |] eqn:Hres;
    [| now split].
  split; [exact Habs |].
  unfold historyOk. cbn [hist back pathname forward].
  split; [constructor; assumption |].
  split; [exact (Hbrowser _ _ _ Habs Hres) | constructor].
Qed.

Lemma pathInvariant_runHandler (b : Browser) (h : Handler) (v : View) :
  absoluteBrowser b ->
  shellHandler h -> pathInvariant v -> pathInvariant (runHandler b h v).
Proof.
  intros Hbrowser. destruct h as [path | slug]; cbn [shellHandler runHandler].
  - intros ->. now apply pathInvariant_handleNavigate.
  - intros _. apply pathInvariant_handleNavigate; [assumption |].
    apply absolute_pathnameLike, slugToPath_startsWith_slash.
Qed.

Lemma pathInvariant_popstate (state : AppState) (h : History) (d : Document)
  (f : bool) :
  historyOk h ->
  pathInvariant
    (handlePopState {| st := state; hist := h; doc := d; inFlight := f |}).
Proof.
  intros Hh. split; [| exact Hh]. cbn.
  apply orDefault_absolute, Hh.
Qed.

Lemma pathInvariant_settle (cfg : Config) (outcome : Settled Response)
  (v : View) :
  pathInvariant v -> pathInvariant (settle cfg outcome v).
Proof.
  intros [Hcur Hh]. split; [| exact Hh].
  unfold settle, fetchSettled. cbn [st].
  destruct (thenP outcome resJson); exact Hcur.
Qed.

Lemma Handler_eqb_eq (a b : Handler) : Handler_eqb a b = true -> a = b.
Proof.
  destruct a, b; cbn; try discriminate; intros H;
    apply String.eqb_eq in H; now subst.
Qed.

Lemma pathInvariant_dispatch (b : Browser) (cfg : Config) (e : Event)
  (v v' : View) :
  absoluteBrowser b ->
  pathInvariant v -> dispatch b cfg e v = Some v' -> pathInvariant v'.
Proof.
  intros Hbrowser Hinv. destruct e as [h | | | outcome]; cbn [dispatch].
  - destruct (existsb _ _) eqn:Hex; [| discriminate].
    intros [= <-]. apply existsb_exists in Hex.
    destruct Hex as (h' & Hin & Heq). apply Handler_eqb_eq in Heq. subst h'.
    apply pathInvariant_runHandler; [assumption | | exact Hinv].
    pose proof (handlers_App cfg (st v)) as Hall.
    rewrite Forall_forall in Hall. now apply Hall.
  - destruct (goBack (hist v)) as [h' |] eqn:Hgo; [| discriminate].
    intros [= <-]. apply pathInvariant_popstate.
    exact (historyOk_goBack _ _ (proj2 Hinv) Hgo).
  - destruct (goForward (hist v)) as [h' |] eqn:Hgo; [| discriminate].
    intros [= <-]. apply pathInvariant_popstate.
    exact (historyOk_goForward _ _ (proj2 Hinv) Hgo).
  - destruct (inFlight v); [| discriminate].
    intros [= <-]. now apply pathInvariant_settle.
Qed.

Lemma pathInvariant_run (b : Browser) (cfg : Config) (es : list Event)
  (v v' : View) :
  absoluteBrowser b ->
  pathInvariant v -> run b cfg es v = Some v' -> pathInvariant v'.
Proof.
  intros Hbrowser. revert v.
  induction es as [| e rest IH]; intros v Hinv; cbn [run].
  - now intros [= <-].
  - destruct (dispatch b cfg e v) as [v1 |] eqn:Hd; [| discriminate].
    apply IH. exact (pathInvariant_dispatch b cfg e v v1 Hbrowser Hinv Hd).
Qed.

Lemma exampleBrowser_absolute : absoluteBrowser exampleBrowser.
Proof.
  intros current url p Hurl. cbn [resolve exampleBrowser].
  destruct (startsWith "//" url); [discriminate |].
  destruct url as [| c rest]; [discriminate Hurl |].
  rewrite startsWith_slash_String in Hurl.
  apply Ascii.eqb_eq in Hurl. subst c. cbn.
  now intros [= <-].
Qed.

(** C9: let the pathnames the browser reports be such as it reports them
    for the documents of a site, empty or starting with a slash: those of
    the session history the view is mounted in, and those it gives to the
    absolute paths it accepts in [pushState].  Then in every view reachable
    from the mount, through clicks on the buttons of the shell, back and
    forward moves with their popstate event and the settling of the fetch,
    the current path is non-empty and starts with ["/"]. *)
Theorem currentPath_absolute (b : Browser) (cfg : Config) (h : History)
  (d : Document) (v : View) :
  absoluteBrowser b ->
  Forall (fun p => pathnameLike p = true) (entries h) ->
  reachable b cfg h d v ->
  currentPath (st v) <> "" /\ startsWith "/" (currentPath (st v)) = true.
Proof.
  intros Hbrowser Hh [es Hrun].
  assert (Hinv : pathInvariant v).
  { apply (pathInvariant_run b cfg es (mount cfg h d)); [assumption | | exact Hrun].
    apply pathInvariant_mount, historyOk_entries, Hh. }
  destruct Hinv as [Habs _].
  split; [now apply absolute_nonempty | exact Habs].
Qed.

(** C9 on a session: the page is opened at ["/about"], the manifest
    arrives, the visitor follows the link to [contact], clicks a link the
    browser refuses and then the site name, and goes back twice. *)
Lemma currentPath_absolute_witness :
  let cfg := {| manifestUrl := Some "/manifest.json"; siteNameEnv := None |} in
  let h := {| back := ["/"]; pathname := "/about"; forward := [] |} in
  let d := {| doc_head := [] |} in
  let page slug := {| pg_slug := slug; pg_title := slug; pg_sections := [] |} in
  let link slug := {| link_label := slug; link_slug := slug |} in
  let m := {| manifest_id := 1; business_name := "Acme";
              page_title := Some "Acme"; meta_description := Some "A site";
              cta := None;
              manifest :=
                {| nav := Some {| nav_links :=
                            Some [link "contact"; link "//about"] |};
                   footer := None;
                   pages := Some [page "home"; page "about"; page "contact"] |}
           |} in
  let es := [ Settle (Fulfilled {| status := 200; body := Json (Some m) |});
              Click (HandleClick "contact");
              Click (HandleClick "//about");
              Click (OnNavigate "/");
              Back; Back ] in
  exists v,
    run exampleBrowser cfg es (mount cfg h d) = Some v /\
    currentPath (st v) = "/about" /\
    currentPath (st v) <> "" /\
    startsWith "/" (currentPath (st v)) = true.
Proof.
  intros cfg h d page link m es.
  destruct (run exampleBrowser cfg es (mount cfg h d)) as [v |] eqn:Hrun;
    [| vm_compute in Hrun; discriminate Hrun].
  exists v. split; [reflexivity |].
  split; [vm_compute in Hrun; now injection Hrun as <- |].
  apply (currentPath_absolute exampleBrowser cfg h d v).
  - exact exampleBrowser_absolute.
  - repeat constructor.
  - exists es. exact Hrun.
Defined.

(** * Further properties of the code *)

(** ** More on [slugToPath] *)

Lemma replaceLeadingSlash_no_slash (s : string) :
  startsWith "/" s = false -> replaceLeadingSlash s = s.
Proof.
  destruct s as [| c rest]; [reflexivity |].
  rewrite startsWith_slash_String, replaceLeadingSlash_String.
  now intros ->.
Qed.

(** X1: a path is a fixed point of [slugToPath]: converting a slug twice
    gives the same path as converting it once. *)
Theorem slugToPath_idempotent (s : string) :
  slugToPath (slugToPath s) = slugToPath s.
Proof.
  destruct (slugToPath_cases s) as [[-> _] | [-> _]]; [reflexivity |].
  set (r := replaceLeadingSlash s).
  destruct (slugToPath_cases ("/" ++ r)) as [[_ Hs] | [-> _]].
  - destruct Hs as [Hs | [Hs | Hs]]; try discriminate Hs.
    injection Hs as ->. reflexivity.
  - reflexivity.
Qed.

(** X2: the root path is the image of exactly three slugs: the empty
    one, ["/"] and ["home"]. *)
Theorem slugToPath_root (s : string) :
  slugToPath s = "/" <-> (s = "" \/ s = "/" \/ s = "home").
Proof.
  split.
  - intros Hroot.
    destruct (slugToPath_cases s) as [[_ Hs] | [Heq (H0 & H1 & H2)]];
      [exact Hs |].
    rewrite Heq in Hroot. injection Hroot as Hrest.
    destruct s as [| c rest]; [contradiction |].
    rewrite replaceLeadingSlash_String in Hrest.
    destruct (Ascii.eqb_spec c "/") as [-> | _]; [| discriminate Hrest].
    subst rest. contradiction.
  - intros [-> | [-> | ->]]; reflexivity.
Qed.

(** X2 at ["home"], and at ["/home"], which is not sent to the root. *)
Lemma slugToPath_root_witness :
  slugToPath "home" = "/" /\ slugToPath "/home" = "/home".
Proof.
  split.
  - exact (proj2 (slugToPath_root "home") (or_intror (or_intror eq_refl))).
  - reflexivity.
Defined.

(** X3: on slugs written without a leading slash, [slugToPath] only
    identifies the empty slug with ["home"]: two such slugs with the same
    path are equal, or both are among these two. *)
Theorem slugToPath_injective (s1 s2 : string) :
  startsWith "/" s1 = false -> startsWith "/" s2 = false ->
  slugToPath s1 = slugToPath s2 ->
  s1 = s2 \/ ((s1 = "" \/ s1 = "home") /\ (s2 = "" \/ s2 = "home")).
Proof.
  intros Hn1 Hn2 Heq.
  assert (Hspecial : forall s, startsWith "/" s = false ->
            s = "" \/ s = "/" \/ s = "home" -> s = "" \/ s = "home").
  { intros s Hn [-> | [-> | ->]]; auto. discriminate Hn. }
  destruct (slugToPath_cases s1) as [[H1 Hs1] | [H1 _]].
  - right. split; [now apply Hspecial |].
    apply Hspecial; [assumption |]. apply slugToPath_root. congruence.
  - destruct (slugToPath_cases s2) as [[H2 Hs2] | [H2 _]].
    + right. split; [| now apply Hspecial].
      apply Hspecial; [assumption |]. apply slugToPath_root. congruence.
    + left. rewrite H1, H2 in Heq. injection Heq as Heq.
      now rewrite !replaceLeadingSlash_no_slash in Heq.
Qed.

(** X3 at the slugs ["about"] and ["about"], and at [""] and ["home"]. *)
Lemma slugToPath_injective_witness :
  ("about" = "about" \/
   (("about" = "" \/ "about" = "home") /\ ("about" = "" \/ "about" = "home")))
  /\ ("" = "home" \/ (("" = "" \/ "" = "home") /\ ("home" = "" \/ "home" = "home"))).
Proof.
  split.
  - exact (slugToPath_injective "about" "about" eq_refl eq_refl eq_refl).
  - exact (slugToPath_injective "" "home" eq_refl eq_refl eq_refl).
Defined.

(** ** More on navigation *)

Lemma orDefault_nonempty (p : string) : p <> "" -> orDefault p "/" = p.
Proof.
  destruct p; [contradiction | reflexivity].
Qed.

Lemma orDefault_fixed (p : string) :
  orDefault (orDefault p "/") "/" = orDefault p "/".
Proof.
  destruct p; reflexivity.
Qed.

(** What a navigation does, by cases: nothing when the path is the
    current one or the browser refuses it, and else one entry and the new
    current path. *)
Lemma handleNavigate_cases (b : Browser) (path : string) (v : View) :
  handleNavigate b path v = v \/
  exists p,
    orDefault path "/" <> currentPath (st v) /\
    resolve b (pathname (hist v)) (orDefault path "/") = Some p /\
    handleNavigate b path v =
      {| st := setCurrentPath (orDefault path "/") (st v);
         hist := {| back := pathname (hist v) :: back (hist v);
                    pathname := p; forward := [] |};
         doc := doc v; inFlight := inFlight v |}.
Proof.
  unfold handleNavigate, pushState.
  destruct (String.eqb_spec (orDefault path "/") (currentPath (st v)))
    as [Heq | Hne]; [now left |].
  destruct (resolve b (pathname (hist v)) (orDefault path "/")) as [p |];
    [| now left].
  right. now exists p.
Qed.

(** X4: navigating twice to the same path is the same as navigating once:
    the second call pushes no entry. *)
Theorem handleNavigate_idempotent (b : Browser) (path : string) (v : View) :
  handleNavigate b path (handleNavigate b path v) = handleNavigate b path v.
Proof.
  destruct (handleNavigate_cases b path v) as [Hsame | (p & _ & _ & Hnew)].
  - now rewrite !Hsame.
  - rewrite Hnew. unfold handleNavigate. cbn [st currentPath setCurrentPath].
    now rewrite String.eqb_refl.
Qed.

(** X5: a click on a link with slug [slug] either makes [slugToPath slug]
    the current path, or changes nothing at all; it changes nothing when
    that path already was the current one (the link was the active one)
    and when the browser refuses the path, and it makes the path current
    when the browser accepts it. *)
Theorem handleClick_currentPath (b : Browser) (slug : string) (v : View) :
  (currentPath (st (handleClick b slug v)) = slugToPath slug \/
   handleClick b slug v = v) /\
  (slugToPath slug = currentPath (st v) -> handleClick b slug v = v) /\
  (resolve b (pathname (hist v)) (slugToPath slug) = None ->
   handleClick b slug v = v) /\
  (forall p, resolve b (pathname (hist v)) (slugToPath slug) = Some p ->
     currentPath (st (handleClick b slug v)) = slugToPath slug).
Proof.
  assert (Hne : orDefault (slugToPath slug) "/" = slugToPath slug).
  { apply orDefault_nonempty, absolute_nonempty, slugToPath_startsWith_slash. }
  unfold handleClick, handleNavigate, pushState. rewrite Hne.
  destruct (String.eqb_spec (slugToPath slug) (currentPath (st v)))
    as [Heq | Hneq].
  - repeat split; auto.
  - destruct (resolve b (pathname (hist v)) (slugToPath slug)) as [p |].
    + repeat split; auto; try contradiction; discriminate.
    + repeat split; auto. discriminate.
Qed.

(** X5 on a view at ["/"]: a click on the link [home] changes nothing, a
    click on [about] makes ["/about"] the current path, a click on
    [//about] is refused. *)
Lemma handleClick_currentPath_witness :
  let v := {| st := {| data := None; isLoading := false; error := None;
                       currentPath := "/" |};
              hist := {| back := ["/a"]; pathname := "/"; forward := [] |};
              doc := {| doc_head := [] |};
              inFlight := false |} in
  handleClick exampleBrowser "home" v = v /\
  currentPath (st (handleClick exampleBrowser "about" v)) = "/about" /\
  handleClick exampleBrowser "//about" v = v.
Proof.
  intros v. split; [| split].
  - exact (proj1 (proj2 (handleClick_currentPath exampleBrowser "home" v))
             eq_refl).
  - exact (proj2 (proj2 (proj2 (handleClick_currentPath exampleBrowser "about" v)))
             "/about" eq_refl).
  - exact (proj1 (proj2 (proj2 (handleClick_currentPath exampleBrowser "//about" v)))
             eq_refl).
Defined.

(** X6: router and composer together.  When some page of the list has the
    path of the clicked link and the browser does not refuse that path,
    the page selected after the click is a page of the list with that
    path. *)
Theorem click_selects_page (b : Browser) (pages : list ManifestPage)
  (slug : string) (v : View) :
  (exists page, In page pages /\
                slugToPath (pg_slug page) = slugToPath slug) ->
  resolve b (pathname (hist v)) (slugToPath slug) <> None ->
  exists selected,
    currentPage pages (currentPath (st (handleClick b slug v))) = Some selected /\
    In selected pages /\
    slugToPath (pg_slug selected) = slugToPath slug.
Proof.
  intros (page & Hin & Hpath) Haccepted.
  assert (Hcur : currentPath (st (handleClick b slug v)) = slugToPath slug).
  { assert (Hne : orDefault (slugToPath slug) "/" = slugToPath slug).
    { apply orDefault_nonempty, absolute_nonempty, slugToPath_startsWith_slash. }
    unfold handleClick, handleNavigate, pushState. rewrite Hne.
    destruct (String.eqb_spec (slugToPath slug) (currentPath (st v)))
      as [Heq | Hneq]; [now symmetry |].
    destruct (resolve b (pathname (hist v)) (slugToPath slug));
      [reflexivity | contradiction]. }
  rewrite Hcur. unfold currentPage.
  destruct pages as [| p0 rest]; [contradiction |].
  change (hasPages (p0 :: rest)) with true. cbv iota.
  destruct (find _ (p0 :: rest)) as [selected |] eqn:Hfind.
  - exists selected. apply find_some in Hfind. destruct Hfind as [Hs Hm].
    apply String.eqb_eq in Hm. auto.
  - pose proof (find_none _ _ Hfind page Hin) as Hno.
    apply String.eqb_neq in Hno. contradiction.
Qed.

(** X6 with pages [home; about] and a click on the link ["/about"]. *)
Lemma click_selects_page_witness :
  let page slug := {| pg_slug := slug; pg_title := slug; pg_sections := [] |} in
  let v := {| st := {| data := None; isLoading := false; error := None;
                       currentPath := "/" |};
              hist := {| back := []; pathname := "/"; forward := [] |};
              doc := {| doc_head := [] |};
              inFlight := false |} in
  exists selected,
    currentPage [page "home"; page "about"]
      (currentPath (st (handleClick exampleBrowser "/about" v))) =
      Some selected /\
    In selected [page "home"; page "about"] /\
    slugToPath (pg_slug selected) = slugToPath "/about".
Proof.
  intros page v.
  apply (click_selects_page exampleBrowser [page "home"; page "about"]
           "/about" v).
  - exists (page "about"). split; [right; left; reflexivity | reflexivity].
  - discriminate.
Defined.

(** X7: a navigation can be undone.  In a view whose current path mirrors
    the location, after a navigation to a different path that the browser
    accepts, with pathname [p], the browser's back move restores the state
    and the location of before, with [p] as the only forward entry.  The
    forward move then leads to the history the navigation had produced,
    with the current path read from the location: [p], or ["/"] when [p]
    is empty, which is the path navigated to only if the browser reports
    it unchanged. *)
Theorem navigate_back_forward (b : Browser) (cfg : Config) (path p : string)
  (v : View) :
  synced v ->
  orDefault path "/" <> currentPath (st v) ->
  resolve b (pathname (hist v)) (orDefault path "/") = Some p ->
  exists v' v'',
    dispatch b cfg Back (handleNavigate b path v) = Some v' /\
    st v' = st v /\
    hist v' = {| back := back (hist v); pathname := pathname (hist v);
                 forward := [p] |} /\
    doc v' = doc v /\
    dispatch b cfg Forward v' = Some v'' /\
    hist v'' = hist (handleNavigate b path v) /\
    currentPath (st v'') = orDefault p "/" /\
    (p = orDefault path "/" -> v'' = handleNavigate b path v).
Proof.
  intros Hsync Hne Hres. unfold synced in Hsync.
  apply String.eqb_neq in Hne.
  destruct v as [[d l e cur] [bk loc fw] dc fl].
  cbn [st hist doc inFlight back pathname forward currentPath] in *.
  subst cur.
  unfold handleNavigate, pushState.
  cbn [st hist doc inFlight back pathname forward currentPath].
  rewrite Hne, Hres.
  do 2 eexists.
  split; [reflexivity |]. split; [reflexivity |]. split; [reflexivity |].
  split; [reflexivity |]. split; [reflexivity |]. split; [reflexivity |].
  split; [reflexivity |].
  intros Hp. subst p. unfold handlePopState, setCurrentPath.
  cbn [st hist doc inFlight back pathname forward currentPath data
       isLoading error].
  now rewrite orDefault_fixed.
Qed.

(** X7 on a view at ["/"] with a forward entry: navigate to ["/a?b=1"],
    then go back and forward; the current path ends as ["/a"]. *)
Lemma navigate_back_forward_witness :
  let cfg := {| manifestUrl := Some "/manifest.json"; siteNameEnv := None |} in
  let v := {| st := {| data := None; isLoading := false; error := None;
                       currentPath := "/" |};
              hist := {| back := []; pathname := "/"; forward := ["/old"] |};
              doc := {| doc_head := [] |};
              inFlight := false |} in
  currentPath (st (handleNavigate exampleBrowser "/a?b=1" v)) = "/a?b=1" /\
  exists v' v'',
    dispatch exampleBrowser cfg Back (handleNavigate exampleBrowser "/a?b=1" v)
      = Some v' /\
    st v' = st v /\
    hist v' = {| back := []; pathname := "/"; forward := ["/a"] |} /\
    dispatch exampleBrowser cfg Forward v' = Some v'' /\
    currentPath (st v'') = "/a".
Proof.
  intros cfg v. split; [reflexivity |].
  destruct (navigate_back_forward exampleBrowser cfg "/a?b=1" "/a" v eq_refl)
    as (v' & v'' & Hback & Hst & Hhist & _ & Hfwd & _ & Hcur & _);
    [discriminate | reflexivity |].
  exists v', v''. auto.
Defined.

(** ** Invariants of the mounted view *)

Lemma fetchSettled_currentPath (outcome : Settled Response) (state : AppState) :
  currentPath (fetchSettled outcome state) = currentPath state.
Proof.
  unfold fetchSettled. destruct (thenP outcome resJson); reflexivity.
Qed.

Lemma locationOf_dispatch (b : Browser) (cfg : Config) (e : Event)
  (v v' : View) :
  locationOf b v -> dispatch b cfg e v = Some v' -> locationOf b v'.
Proof.
  intros Hloc. destruct e as [h | | | outcome]; cbn [dispatch].
  - destruct (existsb _ _); [| discriminate]. intros [= <-].
    assert (Hnav : forall path, locationOf b (handleNavigate b path v)).
    { intros path.
      destruct (handleNavigate_cases b path v) as [-> | (p & _ & Hres & ->)];
        [exact Hloc |].
      right. exists (pathname (hist v)). exact Hres. }
    destruct h; apply Hnav.
  - destruct (goBack (hist v)); [| discriminate]. intros [= <-].
    now left.
  - destruct (goForward (hist v)); [| discriminate]. intros [= <-].
    now left.
  - destruct (inFlight v); [| discriminate]. intros [= <-].
    unfold locationOf, synced, settle in *. cbn [st hist].
    now rewrite fetchSettled_currentPath.
Qed.

Lemma synced_mount (cfg : Config) (h : History) (d : Document) :
  synced (mount cfg h d).
Proof.
  unfold synced, mount, fetchStart. cbn [st hist].
  destruct (negb (truthyOpt (manifestUrl cfg))); reflexivity.
Qed.

(** X8: in every view reachable from the mount the location is what the
    browser made of the current path: its pathname is the current path
    (["/"] for an empty pathname), or it is the pathname the browser gave
    to the current path when that was pushed.  The two can differ, as for
    a path with a query, but the location never belongs to another path. *)
Theorem currentPath_mirrors_location (b : Browser) (cfg : Config)
  (h : History) (d : Document) (v : View) :
  reachable b cfg h d v ->
  currentPath (st v) = orDefault (pathname (hist v)) "/" \/
  exists current,
    resolve b current (currentPath (st v)) = Some (pathname (hist v)).
Proof.
  intros [es Hrun]. change (locationOf b v).
  assert (Hs : locationOf b (mount cfg h d)) by (left; apply synced_mount).
  revert Hrun Hs. generalize (mount cfg h d).
  induction es as [| e rest IH]; intros v0; cbn [run].
  - now intros [= <-].
  - destruct (dispatch b cfg e v0) as [v1 |] eqn:Hd; [| discriminate].
    intros Hrun Hs. apply (IH v1 Hrun).
    exact (locationOf_dispatch b cfg e v0 v1 Hs Hd).
Qed.

(** X8 on a session with a load and a click on a link with a query: the
    current path is ["/a?b=1"], the location ["/a"]. *)
Lemma currentPath_mirrors_location_witness :
  let cfg := {| manifestUrl := Some "/manifest.json"; siteNameEnv := None |} in
  let h := {| back := []; pathname := ""; forward := [] |} in
  let d := {| doc_head := [] |} in
  let m := {| manifest_id := 1; business_name := "Acme";
              page_title := None; meta_description := None; cta := None;
              manifest :=
                {| nav := Some {| nav_links :=
                            Some [ {| link_label := "A";
                                      link_slug := "a?b=1" |} ] |};
                   footer := None; pages := Some [] |} |} in
  let es := [ Settle (Fulfilled {| status := 200; body := Json (Some m) |});
              Click (HandleClick "a?b=1") ] in
  exists v,
    run exampleBrowser cfg es (mount cfg h d) = Some v /\
    currentPath (st v) = "/a?b=1" /\ pathname (hist v) = "/a" /\
    (currentPath (st v) = orDefault (pathname (hist v)) "/" \/
     exists current,
       resolve exampleBrowser current (currentPath (st v)) =
       Some (pathname (hist v))).
Proof.
  intros cfg h d m es.
  destruct (run exampleBrowser cfg es (mount cfg h d)) as [v |] eqn:Hrun;
    [| vm_compute in Hrun; discriminate Hrun].
  exists v. split; [reflexivity |].
  split; [vm_compute in Hrun; now injection Hrun as <- |].
  split; [vm_compute in Hrun; now injection Hrun as <- |].
  apply (currentPath_mirrors_location exampleBrowser cfg h d v).
  exists es. exact Hrun.
Defined.

(** ** The life of the fetch *)

Lemma handlers_without_data (cfg : Config) (state : AppState) :
  data state = None -> handlers (App cfg state) = [].
Proof.
  intros Hd. unfold App. rewrite Hd.
  destruct (negb (truthyOpt (manifestUrl cfg))); [reflexivity |].
  destruct (isLoading state && negb (isSome None)); [reflexivity |].
  destruct (truthyOpt (error state) && negb (isSome None)); [| reflexivity].
  destruct (error state); reflexivity.
Qed.

Lemma entries_goBack (h h' : History) :
  goBack h = Some h' -> entries h' = entries h.
Proof.
  unfold goBack, entries. destruct (back h) as [| p rest]; [discriminate |].
  intros [= <-]. cbn [back pathname forward rev].
  now rewrite <- app_assoc.
Qed.

Lemma entries_goForward (h h' : History) :
  goForward h = Some h' -> entries h' = entries h.
Proof.
  unfold goForward, entries. destruct (forward h) as [| p rest]; [discriminate |].
  intros [= <-]. cbn [back pathname forward rev].
  now rewrite <- app_assoc.
Qed.

(** One event in a view without data that is not the settling of the
    fetch: only a back or forward move is possible, and it changes
    nothing but the current path and the position in the history. *)
Lemma dispatch_without_data (b : Browser) (cfg : Config) (e : Event) (v v' : View) :
  data (st v) = None -> isSettle e = false ->
  dispatch b cfg e v = Some v' ->
  data (st v') = None /\ isLoading (st v') = isLoading (st v) /\
  error (st v') = error (st v) /\ doc v' = doc v /\
  inFlight v' = inFlight v /\ entries (hist v') = entries (hist v).
Proof.
  intros Hd He. destruct e as [h | | | outcome]; cbn [dispatch];
    try discriminate He.
  - now rewrite (handlers_without_data cfg (st v) Hd).
  - destruct (goBack (hist v)) eqn:Hgo; [| discriminate]. intros [= <-].
    cbn. repeat split; auto using entries_goBack.
  - destruct (goForward (hist v)) eqn:Hgo; [| discriminate]. intros [= <-].
    cbn. repeat split; auto using entries_goForward.
Qed.

(** One event in a view whose fetch is not outstanding: the settling is
    refused, and nothing else touches the fetched data, the flags or the
    document. *)
Lemma dispatch_settled (b : Browser) (cfg : Config) (e : Event) (v v' : View) :
  inFlight v = false -> dispatch b cfg e v = Some v' ->
  inFlight v' = false /\ data (st v') = data (st v) /\
  isLoading (st v') = isLoading (st v) /\ error (st v') = error (st v) /\
  doc v' = doc v.
Proof.
  intros Hf. destruct e as [h | | | outcome]; cbn [dispatch].
  - destruct (existsb _ _); [| discriminate]. intros [= <-].
    assert (Hnav : forall path,
              inFlight (handleNavigate b path v) = false /\
              data (st (handleNavigate b path v)) = data (st v) /\
              isLoading (st (handleNavigate b path v)) = isLoading (st v) /\
              error (st (handleNavigate b path v)) = error (st v) /\
              doc (handleNavigate b path v) = doc v).
    { intros path.
      destruct (handleNavigate_cases b path v) as [-> | (p & _ & _ & ->)];
        cbn; auto. }
    destruct h as [path | slug]; apply Hnav.
  - destruct (goBack (hist v)); [| discriminate]. intros [= <-]. cbn. auto.
  - destruct (goForward (hist v)); [| discriminate]. intros [= <-]. cbn. auto.
  - now rewrite Hf.
Qed.

(** X10: without a manifest URL nothing ever happens.  Whatever events
    occur, the view shows the configuration notice, no fetch is started or
    settled, no manifest is stored, the document is the one the page
    started with, and the history holds the entries it held at the mount. *)
Theorem missing_configuration_is_inert (b : Browser) (cfg : Config) (h : History)
  (d : Document) (v : View) :
  truthyOpt (manifestUrl cfg) = false ->
  reachable b cfg h d v ->
  App cfg (st v) = message (VText "Missing VITE_MANIFEST_URL") /\
  data (st v) = None /\ isLoading (st v) = false /\ error (st v) = None /\
  inFlight v = false /\ doc v = d /\ entries (hist v) = entries h.
Proof.
  intros Hurl [es Hrun].
  split; [unfold App; now rewrite Hurl |].
  assert (H0 : data (st (mount cfg h d)) = None /\
               isLoading (st (mount cfg h d)) = false /\
               error (st (mount cfg h d)) = None /\
               inFlight (mount cfg h d) = false /\
               doc (mount cfg h d) = d /\
               entries (hist (mount cfg h d)) = entries h).
  { unfold mount, fetchStart. rewrite Hurl. cbn. repeat split. }
  revert Hrun H0. generalize (mount cfg h d).
  induction es as [| e rest IH]; intros v0; cbn [run].
  - now intros [= <-].
  - destruct (dispatch b cfg e v0) as [v1 |] eqn:Hd; [| discriminate].
    intros Hrun (Hdata & Hload & Herr & Hfl & Hdoc & Hent).
    apply (IH v1 Hrun).
    assert (He : isSettle e = false).
    { destruct e; try reflexivity. cbn [dispatch] in Hd.
      rewrite Hfl in Hd. discriminate Hd. }
    destruct (dispatch_without_data b cfg e v0 v1 Hdata He Hd)
      as (H1 & H2 & H3 & H4 & H5 & H6).
    repeat split; congruence.
Qed.

(** X10 on a session of two back moves. *)
Lemma missing_configuration_is_inert_witness :
  let cfg := {| manifestUrl := None; siteNameEnv := Some "Acme" |} in
  let h := {| back := ["/b"; "/a"]; pathname := "/c"; forward := [] |} in
  let d := {| doc_head := [] |} in
  exists v,
    run exampleBrowser cfg [Back; Back] (mount cfg h d) = Some v /\
    App cfg (st v) = message (VText "Missing VITE_MANIFEST_URL") /\
    entries (hist v) = ["/a"; "/b"; "/c"].
Proof.
  intros cfg h d.
  destruct (run exampleBrowser cfg [Back; Back] (mount cfg h d)) as [v |] eqn:Hrun;
    [| vm_compute in Hrun; discriminate Hrun].
  exists v. split; [reflexivity |].
  destruct (missing_configuration_is_inert exampleBrowser cfg h d v eq_refl
              (ex_intro _ [Back; Back] Hrun))
    as (Happ & _ & _ & _ & _ & _ & Hent).
  split; [exact Happ | exact Hent].
Defined.

(** X11: with a manifest URL the view shows "Loading..." from the mount
    until the fetch settles: no sequence of other events ends it, stores
    data or an error, or adds a history entry. *)
Theorem loading_until_settled (b : Browser) (cfg : Config) (h : History) (d : Document)
  (es : list Event) (v : View) :
  truthyOpt (manifestUrl cfg) = true ->
  forallb (fun e => negb (isSettle e)) es = true ->
  run b cfg es (mount cfg h d) = Some v ->
  App cfg (st v) = message (VText "Loading...") /\
  data (st v) = None /\ error (st v) = None /\ inFlight v = true /\
  doc v = d /\ entries (hist v) = entries h.
Proof.
  intros Hurl Hes Hrun.
  assert (H0 : data (st (mount cfg h d)) = None /\
               isLoading (st (mount cfg h d)) = true /\
               error (st (mount cfg h d)) = None /\
               inFlight (mount cfg h d) = true /\
               doc (mount cfg h d) = d /\
               entries (hist (mount cfg h d)) = entries h).
  { unfold mount, fetchStart. rewrite Hurl. cbn. repeat split. }
  assert (Hgoal : data (st v) = None /\ isLoading (st v) = true /\
                  error (st v) = None /\ inFlight v = true /\
                  doc v = d /\ entries (hist v) = entries h).
  { revert Hes Hrun H0. generalize (mount cfg h d).
    induction es as [| e rest IH]; intros v0; cbn [run forallb].
    - now intros _ [= <-].
    - intros Hall. apply andb_true_iff in Hall. destruct Hall as [He Hrest].
      apply negb_true_iff in He.
      destruct (dispatch b cfg e v0) as [v1 |] eqn:Hd; [| discriminate].
      intros Hrun (Hdata & Hload & Herr & Hfl & Hdoc & Hent).
      apply (IH v1 Hrest Hrun).
      destruct (dispatch_without_data b cfg e v0 v1 Hdata He Hd)
        as (H1 & H2 & H3 & H4 & H5 & H6).
      repeat split; congruence. }
  destruct Hgoal as (Hdata & Hload & Herr & Hfl & Hdoc & Hent).
  repeat split; try assumption.
  unfold App. now rewrite Hurl, Hload, Hdata.
Qed.

(** X11 on a session of a back and a forward move before the response. *)
Lemma loading_until_settled_witness :
  let cfg := {| manifestUrl := Some "/manifest.json"; siteNameEnv := None |} in
  let h := {| back := ["/a"]; pathname := "/b"; forward := [] |} in
  let d := {| doc_head := [] |} in
  exists v,
    run exampleBrowser cfg [Back; Forward] (mount cfg h d) = Some v /\
    App cfg (st v) = message (VText "Loading...").
Proof.
  intros cfg h d.
  destruct (run exampleBrowser cfg [Back; Forward] (mount cfg h d)) as [v |] eqn:Hrun;
    [| vm_compute in Hrun; discriminate Hrun].
  exists v. split; [reflexivity |].
  exact (proj1 (loading_until_settled exampleBrowser cfg h d [Back; Forward] v
                  eq_refl eq_refl Hrun)).
Defined.

(** X12: the fetch settles once.  In a view whose fetch is not
    outstanding, whatever events follow, the stored manifest, the loading
    and error flags and the document stay as they are: a failure is not
    retried, a loaded manifest is not fetched again, and navigation never
    touches the title or the description. *)
Theorem settled_view_is_final (b : Browser) (cfg : Config) (es : list Event) (v v' : View) :
  inFlight v = false ->
  run b cfg es v = Some v' ->
  inFlight v' = false /\ data (st v') = data (st v) /\
  isLoading (st v') = isLoading (st v) /\ error (st v') = error (st v) /\
  doc v' = doc v.
Proof.
  revert v. induction es as [| e rest IH]; intros v Hf; cbn [run].
  - intros [= <-]. auto.
  - destruct (dispatch b cfg e v) as [v1 |] eqn:Hd; [| discriminate].
    intros Hrun.
    destruct (dispatch_settled b cfg e v v1 Hf Hd) as (H1 & H2 & H3 & H4 & H5).
    destruct (IH v1 H1 Hrun) as (G1 & G2 & G3 & G4 & G5).
    repeat split; congruence.
Qed.

(** X12 after a failed fetch: a back move leaves the failure on display. *)
Lemma settled_view_is_final_witness :
  let cfg := {| manifestUrl := Some "/manifest.json"; siteNameEnv := None |} in
  let h := {| back := ["/a"]; pathname := "/b"; forward := [] |} in
  let d := {| doc_head := [] |} in
  let v := settle cfg Rejected (mount cfg h d) in
  exists v',
    run exampleBrowser cfg [Back] v = Some v' /\
    error (st v') = Some "Failed to load site configuration." /\
    data (st v') = None.
Proof.
  intros cfg h d v.
  destruct (run exampleBrowser cfg [Back] v) as [v' |] eqn:Hrun;
    [| vm_compute in Hrun; discriminate Hrun].
  exists v'. split; [reflexivity |].
  destruct (settled_view_is_final exampleBrowser cfg [Back] v v' eq_refl Hrun)
    as (_ & Hdata & _ & Herr & _).
  split; [exact Herr | exact Hdata].
Defined.

(** X13: a manifest that is on display survives a failed fetch.  When the
    state holds a manifest and a fetch ends in a network error or a body
    that is not JSON, the manifest is kept and the rendered view is the one
    of before: the error message is stored but not shown. *)
Theorem failed_fetch_keeps_the_site (cfg : Config) (state : AppState)
  (d : ManifestResponse) (outcome : Settled Response) :
  data state = Some d ->
  thenP outcome resJson = Rejected ->
  data (fetchSettled outcome state) = Some d /\
  error (fetchSettled outcome state) =
    Some "Failed to load site configuration." /\
  App cfg (fetchSettled outcome state) = App cfg state.
Proof.
  intros Hd Hfail. unfold fetchSettled. rewrite Hfail.
  cbn. repeat split; [exact Hd |].
  unfold App. cbn. rewrite Hd. cbn.
  now rewrite !andb_false_r.
Qed.

(** X13 on a loaded state and a rejected fetch. *)
Lemma failed_fetch_keeps_the_site_witness :
  let cfg := {| manifestUrl := Some "/manifest.json"; siteNameEnv := None |} in
  let d := {| manifest_id := 1; business_name := "Acme";
              page_title := None; meta_description := None; cta := None;
              manifest := {| nav := None; footer := None;
                             pages := Some [] |} |} in
  let state := {| data := Some d; isLoading := true; error := None;
                  currentPath := "/" |} in
  App cfg (fetchSettled Rejected state) =
    Layout None None "Acme" "/" NoPagesDefined.
Proof.
  intros cfg d state.
  exact (proj2 (proj2
    (failed_fetch_keeps_the_site cfg state d Rejected eq_refl eq_refl))).
Defined.

(** ** More on the page composer and the shell *)

(** X14: the composer has two outcomes only.  No page is selected exactly
    when the list is empty; the body is never the "Page not found"
    element; and a manifest without a [pages] property is treated like one
    with an empty list. *)
Theorem pageBody_outcomes (pageList : list ManifestPage) (path : string) :
  (currentPage pageList path = None <-> pageList = []) /\
  isPageNotFound (pageBody pageList path) = false /\
  (forall d, pages (manifest d) = None ->
             pageBody (pagesOf d) path = NoPagesDefined).
Proof.
  repeat split.
  - destruct (pageBody_cases pageList path)
      as [[-> _] | (page & _ & Hsel & _)]; [reflexivity | congruence].
  - now intros ->.
  - destruct (pageBody_cases pageList path)
      as [[_ ->] | (page & _ & _ & ->)]; reflexivity.
  - intros d Habs. unfold pagesOf. now rewrite Habs.
Qed.

(** X14 on an empty list and on a manifest without [pages]. *)
Lemma pageBody_outcomes_witness :
  let d := {| manifest_id := 1; business_name := "Acme";
              page_title := None; meta_description := None; cta := None;
              manifest := {| nav := None; footer := None; pages := None |} |} in
  currentPage [] "/x" = None /\ pageBody (pagesOf d) "/x" = NoPagesDefined.
Proof.
  intros d.
  destruct (pageBody_outcomes [] "/x") as (Hnone & _ & Habsent).
  split; [exact (proj2 Hnone eq_refl) | exact (Habsent d eq_refl)].
Defined.

Lemma handlers_link_buttons (attrs : ManifestNavLink -> list Attr)
  (links : list ManifestNavLink) :
  (forall link, attrHandlers (attrs link) = [HandleClick (link_slug link)]) ->
  flat_map handlers
    (map (fun link => VElem "button" (attrs link) [VText (link_label link)])
       links) =
  map (fun link => HandleClick (link_slug link)) links.
Proof.
  intros Hattrs. induction links as [| link rest IH]; [reflexivity |].
  cbn [map flat_map handlers]. rewrite IH, Hattrs. reflexivity.
Qed.

Lemma handlers_whenLinks_buttons (links : option (list ManifestNavLink))
  (tag : string) (cls : list Attr) (attrs : ManifestNavLink -> list Attr) :
  (forall link, attrHandlers (attrs link) = [HandleClick (link_slug link)]) ->
  attrHandlers cls = [] ->
  handlers
    (whenLinks links (fun l =>
       VElem tag cls
         (map (fun link => VElem "button" (attrs link)
                             [VText (link_label link)]) l))) =
  linkHandlers links.
Proof.
  intros Hattrs Hcls. unfold whenLinks, linkHandlers.
  destruct links as [[| link rest] |]; try reflexivity.
  cbn [length Nat.ltb Nat.leb handlers]. rewrite Hcls.
  now rewrite handlers_link_buttons.
Qed.

(** X15: the clickable elements of the view.  Before a manifest is stored
    nothing can be clicked.  Once one is, the buttons are, in document
    order, the site name, which navigates to ["/"], one button per
    navigation link and one per footer link, each passing the slug of its
    link to [handleClick]; the sections of the page hold none. *)
Theorem clickable_elements (cfg : Config) (state : AppState) :
  (data state = None -> handlers (App cfg state) = []) /\
  (forall d, truthyOpt (manifestUrl cfg) = true -> data state = Some d ->
     handlers (App cfg state) =
       (OnNavigate "/" :: linkHandlers (navLinksOf d) ++
        linkHandlers (footerLinksOf d))%list).
Proof.
  split; [apply handlers_without_data |].
  intros d Hurl Hd. unfold App. rewrite Hurl, Hd. cbn [negb isSome].
  rewrite !andb_false_r. unfold Layout.
  cbn [handlers attrHandlers flat_map app].
  rewrite handlers_pageBody, ?app_nil_r. cbn [app].
  rewrite handlers_whenLinks_buttons by reflexivity.
  f_equal. f_equal.
  unfold footerLinksOf.
  destruct (footer (manifest d)) as [f |]; [| reflexivity].
  cbn [handlers attrHandlers flat_map app].
  rewrite ?app_nil_r.
  assert (Htext : handlers (childOpt (footer_text f)) = [])
    by (destruct (footer_text f); reflexivity).
  rewrite Htext. cbn [app].
  now rewrite handlers_whenLinks_buttons by reflexivity.
Qed.

(** X15 on a manifest with one navigation link and two footer links. *)
Lemma clickable_elements_witness :
  let link slug := {| link_label := slug; link_slug := slug |} in
  let d := {| manifest_id := 1; business_name := "Acme";
              page_title := None; meta_description := None; cta := None;
              manifest :=
                {| nav := Some {| nav_links := Some [link "about"] |};
                   footer := Some {| footer_text := Some "Acme";
                                     footer_links :=
                                       Some [link "home"; link "contact"] |};
                   pages := Some [] |} |} in
  let cfg := {| manifestUrl := Some "/manifest.json"; siteNameEnv := None |} in
  let state := {| data := Some d; isLoading := false; error := None;
                  currentPath := "/" |} in
  handlers (App cfg state) =
    [ OnNavigate "/"; HandleClick "about"; HandleClick "home";
      HandleClick "contact" ].
Proof.
  intros link d cfg state.
  exact (proj2 (clickable_elements cfg state) d eq_refl eq_refl).
Defined.

(** ** More on the section dispatcher *)

Lemma tags_andThen (field : option string) (tag : string) (attrs : list Attr) :
  tags (andThen field (VElem tag attrs [childOpt field])) = tagIf field tag.
Proof.
  destruct field as [[| c s] |]; reflexivity.
Qed.

(** X16: which elements a section is made of.  A hero always has its
    heading and its paragraph, even when both fields are missing.  In the
    other blocks the heading element and the paragraph appear exactly when
    the field is a non-empty string: an empty string counts as absent.  A
    section of an unknown type has no element at all. *)
Theorem renderSection_tags (section : ManifestSection) :
  let type := sec_type section in
  let h := tagIf (sec_heading section) "h2" in
  let p := tagIf (sec_body section) "p" in
  (type = "hero" -> tags (renderSection section) = ["section"; "h1"; "p"]) /\
  (type = "text-block" \/ type = "content-block" ->
   tags (renderSection section) = ("section" :: h ++ p)%list) /\
  (type = "image-block" ->
   tags (renderSection section) = ("section" :: h ++ p ++ ["div"])%list) /\
  (type = "profile-row" \/ type = "testimonial" \/ type = "faq" \/
   type = "contact-form" ->
   tags (renderSection section) = ("section" :: "div" :: h ++ p)%list) /\
  (~ In type knownTypes -> tags (renderSection section) = []).
Proof.
  destruct section as [type heading body].
  cbn [sec_type sec_heading sec_body].
  assert (Htext : tags (TextBlock heading body) =
                  ("section" :: tagIf heading "h2" ++ tagIf body "p")%list).
  { unfold TextBlock. cbn [tags flat_map].
    now rewrite !tags_andThen, app_nil_r. }
  assert (Himage : tags (ImageBlock heading body) =
                   ("section" :: tagIf heading "h2" ++ tagIf body "p" ++ ["div"])%list).
  { unfold ImageBlock. cbn [tags flat_map]. now rewrite !tags_andThen. }
  assert (Hgeneric : forall t, tags (GenericSection t heading body) =
                     ("section" :: "div" :: tagIf heading "h2" ++ tagIf body "p")%list).
  { intros t. unfold GenericSection. cbn [tags flat_map app].
    now rewrite !tags_andThen, app_nil_r. }
  repeat apply conj.
  - now intros ->.
  - intros [-> | ->]; exact Htext.
  - intros ->; exact Himage.
  - intros [-> | [-> | [-> | ->]]]; apply Hgeneric.
  - intros Hnot.
    now rewrite (renderSection_unknown
                   {| sec_type := type; sec_heading := heading;
                      sec_body := body |} Hnot).
Qed.

(** X16 at a text block whose heading is the empty string, and at a hero
    without fields. *)
Lemma renderSection_tags_witness :
  tags (renderSection {| sec_type := "text-block"; sec_heading := Some "";
                         sec_body := Some "Body" |}) = ["section"; "p"] /\
  tags (renderSection {| sec_type := "hero"; sec_heading := None;
                         sec_body := None |}) = ["section"; "h1"; "p"].
Proof.
  split.
  - exact (proj1 (proj2 (renderSection_tags
             {| sec_type := "text-block"; sec_heading := Some "";
                sec_body := Some "Body" |})) (or_introl eq_refl)).
  - exact (proj1 (renderSection_tags
             {| sec_type := "hero"; sec_heading := None; sec_body := None |})
             eq_refl).
Defined.

(** ** More on the document metadata *)

Lemma querySelector_setContent (i : nat) (v : string) (head : list HeadChild) :
  querySelector (setContent i v head) = querySelector head.
Proof.
  revert i. induction head as [| c rest IH]; intros [| j];
    try reflexivity; destruct c as [text | m | tag]; cbn; try reflexivity;
    now rewrite IH.
Qed.

Lemma setContent_twice (i : nat) (v w : string) (head : list HeadChild) :
  setContent i v (setContent i w head) = setContent i v head.
Proof.
  revert i. induction head as [| c rest IH]; intros [| j];
    try reflexivity; destruct c as [text | m | tag]; cbn; try reflexivity;
    now rewrite IH.
Qed.

Lemma querySelector_appended (x : string) (head : list HeadChild) :
  querySelector head = None ->
  querySelector (head ++ [descriptionMeta x]) = Some (length head).
Proof.
  induction head as [| c rest IH]; cbn; [reflexivity |].
  destruct (isDescription c); [discriminate |].
  destruct (querySelector rest); [discriminate |].
  intros _. now rewrite IH.
Qed.

Lemma Document_eq (a b : Document) : doc_head a = doc_head b -> a = b.
Proof.
  destruct a, b. cbn. now intros ->.
Qed.

(** The description step of the effect, on a head whose title is
    written. *)
Lemma description_step_twice (x1 x2 : string) (t : string)
  (head : list HeadChild) :
  titleText head <> None ->
  let step x h :=
    match querySelector h with
    | Some i => setContent i x h
    | None => (h ++ [descriptionMeta x])%list
    end in
  step x2 (setTitle t (step x1 head)) = step x2 (setTitle t head).
Proof.
  intros Htitle. cbv beta zeta.
  destruct (querySelector head) as [i |] eqn:Hq.
  - rewrite setTitle_setContent, querySelector_setContent,
      querySelector_setTitle, Hq.
    apply setContent_twice.
  - rewrite (setTitle_app t head _ Htitle), querySelector_setTitle, Hq.
    assert (Hq' : querySelector (setTitle t head) = None)
      by now rewrite querySelector_setTitle.
    rewrite (querySelector_appended x1 _ Hq').
    apply (setContent_appended x2 (setTitle t head)
             {| meta_name := "description"; meta_content := x1 |}).
Qed.

(** X17: the last load with a description wins.  When a manifest with a
    non-empty description is loaded after another one, title and head are
    what they would be had the earlier load not happened: the one
    description element is overwritten, not added to. *)
Theorem later_load_overwrites (cfg : Config) (m1 m2 : ManifestResponse)
  (d : Document) :
  truthyOpt (meta_description m2) = true ->
  metadataEffect cfg (Some m2) (metadataEffect cfg (Some m1) d) =
  metadataEffect cfg (Some m2) d.
Proof.
  intros H2. destruct (truthyOpt_true _ H2) as (x2 & Hm2 & Hx2).
  apply Document_eq.
  rewrite !(metadataEffect_description cfg m2 _ x2 Hm2 Hx2). cbv zeta.
  destruct (truthyOpt (meta_description m1)) eqn:H1.
  - destruct (truthyOpt_true _ H1) as (x1 & Hm1 & Hx1).
    rewrite (metadataEffect_description cfg m1 d x1 Hm1 Hx1). cbv zeta.
    set (t1 := expectedTitle cfg m1). set (t2 := expectedTitle cfg m2).
    set (head := doc_head d).
    assert (Htitle : titleText (setTitle t1 head) <> None)
      by (rewrite titleText_setTitle; discriminate).
    pose proof (description_step_twice x1 x2 t2 (setTitle t1 head) Htitle)
      as Hstep.
    cbv beta zeta in Hstep.
    rewrite !querySelector_setTitle, setTitle_twice in Hstep.
    destruct (querySelector head) as [i |] eqn:Hq.
    + rewrite querySelector_setContent, querySelector_setTitle, Hq in *.
      exact Hstep.
    + rewrite (querySelector_appended x1 (setTitle t1 head)) in *
        by now rewrite querySelector_setTitle.
      exact Hstep.
  - rewrite (metadataEffect_no_description cfg m1 d H1).
    now rewrite querySelector_setTitle, setTitle_twice.
Qed.

(** X17 on a document without title and description element. *)
Lemma later_load_overwrites_witness :
  let cfg := {| manifestUrl := Some "/manifest.json"; siteNameEnv := None |} in
  let m x := {| manifest_id := 1; business_name := "Acme";
                page_title := Some x; meta_description := Some x;
                cta := None;
                manifest := {| nav := None; footer := None;
                               pages := Some [] |} |} in
  let d := {| doc_head := [HOther "link"] |} in
  metadataEffect cfg (Some (m "second")) (metadataEffect cfg (Some (m "first")) d)
  = {| doc_head := [HOther "link"; HTitle "second";
                    descriptionMeta "second"] |}.
Proof.
  intros cfg m d.
  exact (later_load_overwrites cfg (m "first") (m "second") d eq_refl).
Defined.

(** X18: the metadata effect can be run again without harm: applied twice
    with the same [data], be it a manifest or [null], it leaves the
    document as after the first run. *)
Theorem metadataEffect_idempotent (cfg : Config)
  (loaded : option ManifestResponse) (d : Document) :
  metadataEffect cfg loaded (metadataEffect cfg loaded d) =
  metadataEffect cfg loaded d.
Proof.
  destruct loaded as [m |]; [| reflexivity].
  apply Document_eq.
  destruct (truthyOpt (meta_description m)) eqn:Hm.
  - destruct (truthyOpt_true _ Hm) as (x & Hx & Hne).
    rewrite !(metadataEffect_description cfg m _ x Hx Hne). cbv zeta.
    set (t := expectedTitle cfg m). set (head := doc_head d).
    assert (Htitle : titleText (setTitle t head) <> None)
      by (rewrite titleText_setTitle; discriminate).
    pose proof (description_step_twice x x t (setTitle t head) Htitle)
      as Hstep.
    cbv beta zeta in Hstep.
    rewrite !querySelector_setTitle, setTitle_twice in Hstep.
    destruct (querySelector head) as [i |] eqn:Hq.
    + rewrite querySelector_setContent, querySelector_setTitle, Hq in *.
      exact Hstep.
    + rewrite (querySelector_appended x (setTitle t head)) in *
        by now rewrite querySelector_setTitle.
      exact Hstep.
  - rewrite !(metadataEffect_no_description cfg m _ Hm).
    apply setTitle_twice.
Qed.

(** ** The chrome of the shell *)

Lemma tags_buttons (attrs : ManifestNavLink -> list Attr)
  (links : list ManifestNavLink) :
  flat_map tags
    (map (fun link => VElem "button" (attrs link) [VText (link_label link)])
       links) =
  map (fun _ => "button") links.
Proof.
  induction links as [| link rest IH]; [reflexivity |].
  cbn [map flat_map tags app]. now rewrite IH.
Qed.

Lemma tags_whenLinks (links : option (list ManifestNavLink)) (tag : string)
  (cls : list Attr) (attrs : ManifestNavLink -> list Attr) :
  tags
    (whenLinks links (fun l =>
       VElem tag cls
         (map (fun link => VElem "button" (attrs link)
                             [VText (link_label link)]) l))) =
  match links with
  | Some (link :: rest) => tag :: map (fun _ => "button") (link :: rest)
  | _ => []
  end.
Proof.
  unfold whenLinks. destruct links as [[| link rest] |]; try reflexivity.
  cbn [length Nat.ltb Nat.leb tags]. now rewrite tags_buttons.
Qed.

Lemma tags_renderSection (section : ManifestSection) (t : string) :
  In t (tags (renderSection section)) ->
  In t ["section"; "h1"; "h2"; "p"; "div"].
Proof.
  destruct section as [type heading body]. unfold renderSection.
  cbn [sec_type sec_heading sec_body].
  repeat match goal with
         | |- context [if ?b then _ else _] => destruct b
         end;
    try (cbn; tauto);
    destruct heading as [[| c1 h] |], body as [[| c2 b] |]; cbn; tauto.
Qed.

Lemma tags_pageBody (pageList : list ManifestPage) (path t : string) :
  In t (tags (pageBody pageList path)) ->
  In t ["section"; "h1"; "h2"; "p"; "div"].
Proof.
  destruct (pageBody_cases pageList path) as [[_ ->] | (page & _ & _ & ->)].
  - cbn. tauto.
  - cbn [tags]. intros [<- | Hin]; [cbn; tauto |].
    apply in_flat_map in Hin. destruct Hin as (node & Hnode & Ht).
    apply in_map_iff in Hnode. destruct Hnode as (section & <- & _).
    exact (tags_renderSection section t Ht).
Qed.

(** X19: what the shell shows around the page.  In the view of a stored
    manifest the [nav] element is present exactly when the manifest has at
    least one navigation link, and the [footer] element exactly when the
    manifest has a footer object, be it an empty one. *)
Theorem shell_chrome (cfg : Config) (state : AppState) (d : ManifestResponse) :
  truthyOpt (manifestUrl cfg) = true ->
  data state = Some d ->
  (In "nav" (tags (App cfg state)) <->
   exists link rest, navLinksOf d = Some (link :: rest)) /\
  (In "footer" (tags (App cfg state)) <->
   exists f, footer (manifest d) = Some f).
Proof.
  intros Hurl Hd.
  assert (Hbody : forall t, In t (tags (pageBody (pagesOf d) (currentPath state))) ->
                            t <> "nav" /\ t <> "footer").
  { intros t Ht. apply tags_pageBody in Ht. cbn in Ht.
    split; intros ->; intuition discriminate. }
  unfold App. rewrite Hurl, Hd. cbn [negb isSome].
  rewrite !andb_false_r. unfold Layout.
  cbn [tags flat_map app]. rewrite tags_whenLinks, ?app_nil_r.
  set (body := tags (pageBody (pagesOf d) (currentPath state))) in *.
  assert (Hfooter : forall t,
            In t (tags match footer (manifest d) with
                       | Some f =>
                           VElem "footer"
                             [ClassName "border-t border-slate-800 bg-slate-900/70 text-sm"]
                             [VElem "div"
                                [ClassName "mx-auto max-w-5xl px-4 py-4 flex flex-col gap-2 md:flex-row md:items-center md:justify-between"]
                                [VElem "div" [ClassName "text-slate-400"]
                                   [childOpt (footer_text f)];
                                 whenLinks (footer_links f) (fun links =>
                                   VElem "div" [ClassName "flex flex-wrap gap-3"]
                                     (map (fun link =>
                                        VElem "button"
                                          [ButtonType "button";
                                           OnClick (HandleClick (link_slug link));
                                           ClassName "text-slate-300 hover:text-white"]
                                          [VText (link_label link)]) links))]]
                       | None => VNothing
                       end) ->
            (t = "footer" /\ exists f, footer (manifest d) = Some f) \/
            t = "div" \/ t = "button").
  { intros t. destruct (footer (manifest d)) as [f |]; [| intros []].
    cbn [tags flat_map app]. rewrite tags_whenLinks, ?app_nil_r.
    assert (Htext : tags (childOpt (footer_text f)) = [])
      by (destruct (footer_text f); reflexivity).
    rewrite Htext. cbn [app].
    intros [<- | [<- | [<- | Hin]]]; eauto.
    destruct (footer_links f) as [[| l ls] |]; try contradiction.
    destruct Hin as [<- | Hin]; auto.
    apply in_map_iff in Hin. destruct Hin as (_ & <- & _). auto. }
  split; split.
  - intros Hin.
    repeat (destruct Hin as [Hin | Hin]; [discriminate Hin |]).
    apply in_app_iff in Hin. destruct Hin as [Hin | Hin].
    + destruct (navLinksOf d) as [[| l ls] |]; try contradiction; eauto.
    + repeat (destruct Hin as [Hin | Hin]; [discriminate Hin |]).
      apply in_app_iff in Hin. destruct Hin as [Hin | Hin].
      * apply Hbody in Hin. now destruct Hin.
      * apply Hfooter in Hin.
        destruct Hin as [[Hin _] | [Hin | Hin]]; discriminate Hin.
  - intros (l & ls & ->). do 4 right. apply in_app_iff. left. now left.
  - intros Hin.
    repeat (destruct Hin as [Hin | Hin]; [discriminate Hin |]).
    apply in_app_iff in Hin. destruct Hin as [Hin | Hin].
    + destruct (navLinksOf d) as [[| l ls] |]; try contradiction.
      destruct Hin as [Hin | Hin]; [discriminate Hin |].
      apply in_map_iff in Hin. destruct Hin as (_ & Hin & _). discriminate Hin.
    + repeat (destruct Hin as [Hin | Hin]; [discriminate Hin |]).
      apply in_app_iff in Hin. destruct Hin as [Hin | Hin].
      * apply Hbody in Hin. now destruct Hin.
      * apply Hfooter in Hin.
        destruct Hin as [[_ Hf] | [Hin | Hin]];
          [exact Hf | discriminate Hin | discriminate Hin].
  - intros (f & Hf). do 4 right. apply in_app_iff. right.
    do 2 right. apply in_app_iff. right. rewrite Hf. now left.
Qed.

(** X19 on a manifest with one navigation link and an empty footer
    object. *)
Lemma shell_chrome_witness :
  let d := {| manifest_id := 1; business_name := "Acme";
              page_title := None; meta_description := None; cta := None;
              manifest :=
                {| nav := Some {| nav_links :=
                            Some [ {| link_label := "About";
                                      link_slug := "about" |} ] |};
                   footer := Some {| footer_text := None;
                                     footer_links := None |};
                   pages := Some [] |} |} in
  let cfg := {| manifestUrl := Some "/manifest.json"; siteNameEnv := None |} in
  let state := {| data := Some d; isLoading := false; error := None;
                  currentPath := "/" |} in
  In "nav" (tags (App cfg state)) /\ In "footer" (tags (App cfg state)).
Proof.
  intros d cfg state.
  destruct (shell_chrome cfg state d eq_refl eq_refl) as [Hnav Hfooter].
  split.
  - apply (proj2 Hnav). do 2 eexists. reflexivity.
  - apply (proj2 Hfooter). eexists. reflexivity.
Defined.

Lemma classes_renderSection (section : ManifestSection) (c : string) :
  In c (classes (renderSection section)) -> c <> activeClass.
Proof.
  destruct section as [type heading body]. unfold renderSection.
  cbn [sec_type sec_heading sec_body].
  repeat match goal with
         | |- context [if ?b then _ else _] => destruct b
         end;
    try (cbn; intros H Heq; subst c; intuition discriminate);
    destruct heading as [[| c1 h] |], body as [[| c2 b] |]; cbn;
    intros H Heq; subst c; intuition discriminate.
Qed.

Lemma classes_pageBody (pageList : list ManifestPage) (path c : string) :
  In c (classes (pageBody pageList path)) -> c <> activeClass.
Proof.
  destruct (pageBody_cases pageList path) as [[_ ->] | (page & _ & _ & ->)].
  - cbn. tauto.
  - cbn [classes attrClasses flat_map app]. intros [<- | Hin]; [discriminate |].
    apply in_flat_map in Hin. destruct Hin as (node & Hnode & Hc).
    apply in_map_iff in Hnode. destruct Hnode as (section & <- & _).
    exact (classes_renderSection section c Hc).
Qed.

Lemma classes_footer_buttons (links : list ManifestNavLink) (c : string) :
  In c (flat_map classes
          (map (fun link =>
             VElem "button"
               [ButtonType "button"; OnClick (HandleClick (link_slug link));
                ClassName "text-slate-300 hover:text-white"]
               [VText (link_label link)]) links)) ->
  c = "text-slate-300 hover:text-white".
Proof.
  induction links as [| link rest IH]; [intros [] |].
  cbn [map flat_map classes attrClasses app].
  intros [<- | Hin]; [reflexivity | now apply IH].
Qed.

Lemma classes_nav_buttons (currentPath : string)
  (links : list ManifestNavLink) :
  In activeClass
    (flat_map classes
       (map (fun link =>
          VElem "button"
            [ButtonType "button"; OnClick (HandleClick (link_slug link));
             ClassName
               ("px-2 py-1 rounded-md transition-colors " ++
                (if slugToPath (link_slug link) =? currentPath
                 then "bg-slate-100 text-slate-900"
                 else "text-slate-200 hover:bg-slate-800"))]
            [VText (link_label link)]) links)) <->
  exists link, In link links /\ slugToPath (link_slug link) = currentPath.
Proof.
  induction links as [| link rest IH].
  - split; [intros [] | intros (l & [] & _)].
  - cbn [map flat_map classes attrClasses app].
    destruct (String.eqb_spec (slugToPath (link_slug link)) currentPath)
      as [Heq | Hne].
    + split; [| intros _; now left].
      intros _. exists link. split; [now left | exact Heq].
    + split.
      * intros [Hin | Hin]; [discriminate Hin |].
        apply IH in Hin. destruct Hin as (l & Hl & Hp).
        exists l. split; [now right | exact Hp].
      * intros (l & [<- | Hl] & Hp); [contradiction |].
        right. apply IH. now exists l.
Qed.

(** X20: which navigation buttons are marked as active.  In the view of a
    stored manifest some element carries the active style exactly when
    some navigation link's slug, converted by [slugToPath], equals the
    current path; no other element of the view ever carries it. *)
Theorem active_link_marked (cfg : Config) (state : AppState)
  (d : ManifestResponse) :
  truthyOpt (manifestUrl cfg) = true ->
  data state = Some d ->
  (In activeClass (classes (App cfg state)) <->
   exists links link,
     navLinksOf d = Some links /\ In link links /\
     slugToPath (link_slug link) = currentPath state).
Proof.
  intros Hurl Hd.
  unfold App. rewrite Hurl, Hd. cbn [negb isSome].
  rewrite !andb_false_r. unfold Layout.
  cbn [classes attrClasses flat_map app]. rewrite ?app_nil_r.
  assert (Hfooter : forall c,
            In c (classes match footer (manifest d) with
                          | Some f =>
                              VElem "footer"
                                [ClassName "border-t border-slate-800 bg-slate-900/70 text-sm"]
                                [VElem "div"
                                   [ClassName "mx-auto max-w-5xl px-4 py-4 flex flex-col gap-2 md:flex-row md:items-center md:justify-between"]
                                   [VElem "div" [ClassName "text-slate-400"]
                                      [childOpt (footer_text f)];
                                    whenLinks (footer_links f) (fun links =>
                                      VElem "div" [ClassName "flex flex-wrap gap-3"]
                                        (map (fun link =>
                                           VElem "button"
                                             [ButtonType "button";
                                              OnClick (HandleClick (link_slug link));
                                              ClassName "text-slate-300 hover:text-white"]
                                             [VText (link_label link)]) links))]]
                          | None => VNothing
                          end) ->
            c <> activeClass).
  { intros c. destruct (footer (manifest d)) as [f |]; [| intros []].
    cbn [classes attrClasses flat_map app]. rewrite ?app_nil_r.
    assert (Htext : classes (childOpt (footer_text f)) = [])
      by (destruct (footer_text f); reflexivity).
    rewrite Htext. cbn [app].
    intros [<- | [<- | [<- | Hin]]]; try discriminate.
    unfold whenLinks in Hin.
    destruct (footer_links f) as [l |]; [| contradiction].
    destruct (0 <? length l)%nat; [| contradiction].
    cbn [classes attrClasses flat_map app] in Hin.
    destruct Hin as [<- | Hin]; [discriminate |].
    apply classes_footer_buttons in Hin. subst c. discriminate. }
  split.
  - intros Hin.
    repeat (destruct Hin as [Hin | Hin]; [discriminate Hin |]).
    apply in_app_iff in Hin. destruct Hin as [Hin | Hin].
    + unfold whenLinks in Hin.
      destruct (navLinksOf d) as [l |]; [| contradiction].
      destruct (0 <? length l)%nat; [| contradiction].
      cbn [classes attrClasses flat_map app] in Hin.
      destruct Hin as [Hin | Hin]; [discriminate Hin |].
      apply classes_nav_buttons in Hin. destruct Hin as (link & Hl & Hp).
      now exists l, link.
    + repeat (destruct Hin as [Hin | Hin]; [discriminate Hin |]).
      apply in_app_iff in Hin. destruct Hin as [Hin | Hin].
      * now apply classes_pageBody in Hin.
      * now apply Hfooter in Hin.
  - intros (l & link & Hnav & Hl & Hp). do 4 right.
    apply in_app_iff. left. unfold whenLinks. rewrite Hnav.
    destruct l as [| l0 ls]; [contradiction |].
    cbn [length Nat.ltb Nat.leb classes attrClasses flat_map app]. right.
    apply classes_nav_buttons. now exists link.
Qed.

(** X20 after a click on the link [about]: that link is the active one. *)
Lemma active_link_marked_witness :
  let d := {| manifest_id := 1; business_name := "Acme";
              page_title := None; meta_description := None; cta := None;
              manifest :=
                {| nav := Some {| nav_links :=
                            Some [ {| link_label := "Home";
                                      link_slug := "home" |};
                                   {| link_label := "About";
                                      link_slug := "about" |} ] |};
                   footer := None; pages := Some [] |} |} in
  let cfg := {| manifestUrl := Some "/manifest.json"; siteNameEnv := None |} in
  let v := {| st := {| data := Some d; isLoading := false; error := None;
                       currentPath := "/" |};
              hist := {| back := []; pathname := "/"; forward := [] |};
              doc := {| doc_head := [] |};
              inFlight := false |} in
  In activeClass (classes (App cfg (st (handleClick exampleBrowser "about" v)))).
Proof.
  intros d cfg v.
  apply (proj2 (active_link_marked cfg (st (handleClick exampleBrowser "about" v)) d
                  eq_refl eq_refl)).
  eexists. exists {| link_label := "About"; link_slug := "about" |}.
  split; [reflexivity |]. split; [right; left; reflexivity | reflexivity].
Defined.
